(** * dbpsql: the query-helper / unit-of-work layer of [pkg/postgres]

    A shallow embedding of [app/back/pkg/postgres/postgres.go] and of the
    sentinel errors of [app/back/pkg/models/errors/errors.go].

    The Go code talks to [sqlx], [database/sql], [time] and [log]; those
    libraries are not part of the repository, so they appear here as an
    abstract [Driver]: a type of external worlds and one transition per
    library call.  Every function of the repository is a state-passing
    computation over that world, the heap of [PostgresUnitOfWork] objects
    and a log of the library calls performed so far.  A computation ends
    either by returning or by panicking. *)

From stdpp Require Import base option list strings gmap pretty.
From Stdlib Require Import ZArith Lia.

Set Default Proof Using "Type".
Local Open Scope string_scope.

(* ------------------------------------------------------------------ *)
(** ** Go error values *)
(* ------------------------------------------------------------------ *)

Module GoError.

(** The error values created once by [errors.New] and compared by identity:
    the seven of [models/errors] and [sql.ErrNoRows] of [database/sql]. *)
Inductive sentinel : Set :=
| ErrNotFound
| ErrNotAuthorized
| ErrInternal
| ErrNotUpdated
| ErrAlreadyExists
| ErrInvalidParams
| ErrAccessDenied
| sql_ErrNoRows.

#[global] Instance sentinel_eq_dec : EqDecision sentinel.
Proof. solve_decision. Defined.

(** A non-nil [error]: a sentinel, a value built by [fmt.Errorf] around one
    [%w] operand, or any other error that unwraps to nothing (what the
    driver reports, or an [fmt.Errorf] without a [%w] operand). *)
Inductive error : Set :=
| Sentinel (s : sentinel)
| OtherError (msg : string)
| wrapError (msg : string) (err : error).

Coercion Sentinel : sentinel >-> error.

#[global] Instance error_eq_dec : EqDecision error.
Proof. solve_decision. Defined.

Definition sentinel_text (s : sentinel) : string :=
  match s with
  | ErrNotFound => "data not found"
  | ErrNotAuthorized => "data not authorized"
  | ErrInternal => "internal server error"
  | ErrNotUpdated => "not record for update"
  | ErrAlreadyExists => "data already exists"
  | ErrInvalidParams => "invalid parameters"
  | ErrAccessDenied => "access denied"
  | sql_ErrNoRows => "sql: no rows in result set"
  end.

(** [err.Error()] *)
Definition Error (e : error) : string :=
  match e with
  | Sentinel s => sentinel_text s
  | OtherError msg => msg
  | wrapError msg _ => msg
  end.

(** [errors.Unwrap(err)] *)
Definition Unwrap (e : error) : option error :=
  match e with
  | wrapError _ inner => Some inner
  | _ => None
  end.

(** [errors.Is(err, target)] for a sentinel target: walk the [Unwrap] chain
    and compare by identity. *)
Fixpoint errors_Is (err : error) (target : sentinel) : bool :=
  match err with
  | Sentinel s => bool_decide (s = target)
  | OtherError _ => false
  | wrapError _ inner => errors_Is inner target
  end.

(** [fmt.Errorf(pre + "%w", w)]: the text [pre], then the one operand,
    which the result wraps. *)
Definition Errorf_prefix_w (pre : string) (w : error) : error :=
  wrapError (pre ++ Error w) w.

(** [fmt.Errorf("%w" + rest, w, ...)]: the one wrapped operand [w], then
    [post], the rest of the format already rendered (a [%v] operand [err]
    renders as [Error err]). *)
Definition Errorf_w_suffix (w : error) (post : string) : error :=
  wrapError (Error w ++ post) w.

(** A value of Go type [error]: [None] is [nil]. *)
Abbreviation goerror := (option error).

End GoError.
Export GoError.

(* ------------------------------------------------------------------ *)
(** ** Values, handles and the library interface *)
(* ------------------------------------------------------------------ *)

(** [context.Context] values the code builds or receives. *)
Inductive Context : Set :=
| Background
| WithTimeout (parent : Context) (timeout : Z)
| CallerCtx (id : N).

(** Handles of the objects owned by the libraries. *)
Inductive DB : Set := DBHandle (id : N).
Inductive Tx : Set := TxHandle (id : N).
Inductive NamedStmt : Set := StmtHandle (id : N).
Inductive Result : Set := ResultHandle (id : N).

#[global] Instance DB_eq_dec : EqDecision DB.
Proof. solve_decision. Defined.
#[global] Instance Tx_eq_dec : EqDecision Tx.
Proof. solve_decision. Defined.

(** [template.OnlyId] *)
Record OnlyId : Set := mkOnlyId { Id : Z }.

(** The Go types of the destinations the helpers scan into, and their
    values; a slice is a list, [nil] being the empty list. *)
Inductive dest_type : Set :=
| t_int64
| t_bool
| t_OnlyId
| t_slice (t : dest_type).

Fixpoint dest_val (t : dest_type) : Set :=
  match t with
  | t_int64 => Z
  | t_bool => bool
  | t_OnlyId => OnlyId
  | t_slice t' => list (dest_val t')
  end.

(** [map[string]interface{}]: the named parameters of a template. *)
Inductive value : Set :=
| VNil
| VInt (n : Z)
| VBool (b : bool)
| VString (s : string).

Abbreviation Params := (gmap string value).

(** The value carried by a panic.  The package imports [log/slog], hence
    Go 1.21 or later, where [panic(nil)] raises a [*runtime.PanicNilError]:
    [recover()] returns a non-nil value exactly when the goroutine is
    panicking. *)
Inductive panic_value : Set :=
| PanicNilError
| IndexOutOfRange (index len : Z)
| NilDereference
| PanicError (e : error)
| PanicString (s : string).

(** How a call ends. *)
Inductive outcome (A : Type) : Type :=
| Ret (a : A)
| Panic (p : panic_value).
Arguments Ret {A} a.
Arguments Panic {A} p.

(** [time.Duration], in nanoseconds. *)
Definition Second : Z := 1000000000.
Definition Minute : Z := 60 * Second.

(** The libraries under the package.  A pointer result that the library
    returns together with an error is a sum: [inl h] is [(h, nil)] and
    [inr e] is [(nil, e)]. *)
Class Driver : Type := {
  World : Type;
  (* sqlx.Open, DB.PingContext and the pool setters *)
  sqlx_Open : string -> string -> World -> outcome (DB + error) * World;
  DB_PingContext : DB -> Context -> World -> outcome goerror * World;
  DB_SetMaxOpenConns : DB -> Z -> World -> World;
  DB_SetMaxIdleConns : DB -> Z -> World -> World;
  DB_SetConnMaxLifetime : DB -> Z -> World -> World;
  DB_Close : DB -> World -> outcome goerror * World;
  (* transactions *)
  DB_BeginTxx : DB -> Context -> World -> outcome (Tx + error) * World;
  Tx_Commit : Tx -> World -> outcome goerror * World;
  Tx_Rollback : Tx -> World -> outcome goerror * World;
  (* the two implementations of PrepareNamedContext *)
  DB_PrepareNamedContext :
    DB -> Context -> string -> World -> outcome (NamedStmt + error) * World;
  Tx_PrepareNamedContext :
    Tx -> Context -> string -> World -> outcome (NamedStmt + error) * World;
  (* the methods of sqlx.NamedStmt *)
  NamedStmt_SelectContext :
    NamedStmt -> Context -> forall t, dest_val t -> Params ->
    World -> outcome (dest_val t * goerror) * World;
  NamedStmt_GetContext :
    NamedStmt -> Context -> forall t, dest_val t -> Params ->
    World -> outcome (dest_val t * goerror) * World;
  NamedStmt_ExecContext :
    NamedStmt -> Context -> Params -> World -> outcome (Result + error) * World;
  NamedStmt_Close : NamedStmt -> World -> outcome goerror * World;
  (* sql.Result *)
  Result_RowsAffected : Result -> World -> outcome (Z * goerror) * World;
  (* time.Sleep *)
  time_Sleep : Z -> World -> World;
}.

(* ------------------------------------------------------------------ *)
(** ** Computations: state passing with panics *)
(* ------------------------------------------------------------------ *)

Definition M (S A : Type) : Type := S -> outcome A * S.

Definition ret {S A} (a : A) : M S A := fun s => (Ret a, s).

(** [panic(p)] *)
Definition panic {S A} (p : panic_value) : M S A := fun s => (Panic p, s).

Definition bind {S A B} (m : M S A) (k : A -> M S B) : M S B :=
  fun s =>
    match m s with
    | (Ret a, s') => k a s'
    | (Panic p, s') => (Panic p, s')
    end.

Notation "x <- m ;; k" := (bind m (fun x => k))
  (at level 62, m at next level, right associativity, only parsing).
Notation "m ;;; k" := (bind m (fun _ => k))
  (at level 62, right associativity, only parsing).

(** [defer d(); body], the results of [d] dropped: [body] runs, then [d],
    whether [body] returned or panicked; a panic of [d] replaces the
    outcome of [body]. *)
Definition defer_call {S A B} (d : M S B) (body : M S A) : M S A :=
  fun s =>
    let '(r, s1) := body s in
    match d s1 with
    | (Ret _, s2) => (r, s2)
    | (Panic p, s2) => (Panic p, s2)
    end.

(** [defer func() { ... }(); body] in a function with a named result, for
    a closure that starts by calling [recover()].  The closure gets what
    [recover()] yields and the named result as it stands ([cur] while
    [body] has not returned); what it returns is the named result the
    function returns. *)
Definition defer_func {S A}
    (closure : option panic_value -> A -> M S A) (cur : A) (body : M S A) : M S A :=
  fun s =>
    match body s with
    | (Ret a, s1) => closure None a s1
    | (Panic p, s1) => closure (Some p) cur s1
    end.

(** [l[i]] on a slice. *)
Definition index {S A} (l : list A) (i : Z) : M S A :=
  if (i <? 0)%Z then panic (IndexOutOfRange i (Z.of_nat (length l)))
  else match l !! Z.to_nat i with
       | Some x => ret x
       | None => panic (IndexOutOfRange i (Z.of_nat (length l)))
       end.

(* ------------------------------------------------------------------ *)
(** ** The package [postgres] *)
(* ------------------------------------------------------------------ *)

(** MaxRetries defines the maximum number of connection retries *)
Definition MaxRetries : Z := 50.

(** RetryInterval defines the interval between retries *)
Definition RetryInterval : Z := 5 * Second.

Definition MaxOpenConns : Z := 5.
Definition MaxIdleConns : Z := 5.
Definition ConnMaxLifetime : Z := 5 * Minute.

(** A value of the interface [Queryer]: its dynamic type is [*sqlx.DB] or
    [*sqlx.Tx], the two types of the program that implement it. *)
Inductive Queryer : Set :=
| Queryer_DB (h : DB)
| Queryer_Tx (t : Tx).

#[global] Instance Queryer_eq_dec : EqDecision Queryer.
Proof. solve_decision. Defined.

(** [PostgresUnitOfWork]; [tx = None] is the nil pointer. *)
Record PostgresUnitOfWork : Set := mkUoW { db : DB; tx : option Tx }.

(** A [*PostgresUnitOfWork]. *)
Abbreviation uowptr := positive.

(** The library calls, in the order they were made. *)
Inductive event : Type :=
| EvOpen (driverName dsn : string)
| EvPingContext (h : DB) (ctx : Context)
| EvCancel (ctx : Context)
| EvSetMaxOpenConns (h : DB) (n : Z)
| EvSetMaxIdleConns (h : DB) (n : Z)
| EvSetConnMaxLifetime (h : DB) (d : Z)
| EvClose (h : DB)
| EvLogPrintln (msg : string)
| EvSlogError (msg : string) (attempt : option Z) (err : error)
| EvSleep (d : Z)
| EvBeginTxx (h : DB) (ctx : Context)
| EvCommit (t : Tx)
| EvRollback (t : Tx)
| EvPrepareNamed (q : Queryer) (ctx : Context) (query : string)
| EvSelect (stmt : NamedStmt) (ctx : Context) (params : Params)
| EvGet (stmt : NamedStmt) (ctx : Context) (params : Params)
| EvExec (stmt : NamedStmt) (ctx : Context) (params : Params)
| EvStmtClose (stmt : NamedStmt)
| EvRowsAffected (res : Result).

Section Postgres.
Context `{Drv : Driver}.

(** The state of a run: the world of the libraries, the unit-of-work
    objects allocated so far, and the library calls made so far. *)
Record State : Type := mkState {
  world : World;
  uows : gmap uowptr PostgresUnitOfWork;
  calls : list event;
}.

Abbreviation Go := (M State).

(** The state once the library call [ev] has moved the world to [w]. *)
Definition logged (ev : event) (w : World) (s : State) : State :=
  {| world := w; uows := uows s; calls := calls s ++ [ev] |}.

(** A library call: the library moves the world, and the call is logged. *)
Definition call {A} (ev : event) (f : World -> outcome A * World) : Go A :=
  fun s => let '(r, w) := f (world s) in (r, logged ev w s).

(** A library call that returns nothing. *)
Definition call_ (ev : event) (f : World -> World) : Go unit :=
  call ev (fun w => (Ret tt, f w)).

(** [*uow] *)
Definition load (uow : uowptr) : Go PostgresUnitOfWork :=
  fun s =>
    match uows s !! uow with
    | Some u => (Ret u, s)
    | None => (Panic NilDereference, s)
    end.

(** The state once [*uow] holds [u]. *)
Definition stored (uow : uowptr) (u : PostgresUnitOfWork) (s : State) : State :=
  {| world := world s; uows := <[uow := u]> (uows s); calls := calls s |}.

(** [uow.tx = t] *)
Definition store_tx (uow : uowptr) (t : option Tx) : Go unit :=
  u <- load uow ;;
  fun s => (Ret tt, stored uow {| db := db u; tx := t |} s).

(** NewUnitOfWork создает новый экземпляр PostgresUnitOfWork *)
Definition NewUnitOfWork (h : DB) : Go uowptr :=
  fun s =>
    let p := fresh (dom (uows s)) in
    (Ret p, stored p {| db := h; tx := None |} s).

(** Do выполняет функцию в рамках транзакции.
    While [fn] runs, the named result [err] is nil, as [BeginTxx] left it. *)
Definition Do (ctx : Context) (uow : uowptr) (fn : uowptr -> Go goerror) : Go goerror :=
  u <- load uow ;;
  r <- call (EvBeginTxx (db u) ctx) (DB_BeginTxx (db u) ctx) ;;
  match r with
  | inr err => ret (Some err)
  | inl t =>
      store_tx uow (Some t) ;;;
      defer_func
        (fun p err =>
           match p with
           | Some p =>
               call (EvRollback t) (Tx_Rollback t) ;;;
               panic p
           | None =>
               match err with
               | Some _ =>
                   call (EvRollback t) (Tx_Rollback t) ;;;
                   ret err
               | None => call (EvCommit t) (Tx_Commit t)
               end
           end)
        None
        (fn uow)
  end.

(** GetQueryer возвращает текущий Queryer (tx или db) *)
Definition GetQueryer (uow : uowptr) : Go Queryer :=
  u <- load uow ;;
  match tx u with
  | Some t => ret (Queryer_Tx t)
  | None => ret (Queryer_DB (db u))
  end.

(** connectDB устанавливает соединение с базой данных и проверяет его *)
Definition connectDB (dsn : string) : Go (option DB * goerror) :=
  r <- call (EvOpen "pgx" dsn) (sqlx_Open "pgx" dsn) ;;
  match r with
  | inr err => ret (None, Some (Errorf_prefix_w "ошибка при открытии соединения: " err))
  | inl h =>
      let ctx := WithTimeout Background (5 * Second) in
      defer_call (call_ (EvCancel ctx) id)
        (err <- call (EvPingContext h ctx) (DB_PingContext h ctx) ;;
         match err with
         | Some err => ret (None, Some (Errorf_prefix_w "ошибка при проверке соединения: " err))
         | None => ret (Some h, None)
         end)
  end.

(** The error [InitDB] builds once the loop is over;
    [%w] applied to a nil error wraps nothing. *)
Definition retries_exhausted (err : goerror) : error :=
  let pre := "не удалось подключиться к базе данных после "
             ++ pretty MaxRetries ++ " попыток: " in
  match err with
  | Some err => Errorf_prefix_w pre err
  | None => OtherError (pre ++ "%!w(<nil>)")
  end.

(** The loop [for i := 0; i < MaxRetries; i++] of [InitDB] with [n]
    iterations left, [i] the loop counter and [err] the variable of that
    name; [i] stays below 50, far from the bounds of [int]. *)
Fixpoint InitDB_loop (n : nat) (i : Z) (dsn : string) (err : goerror)
    : Go (option DB * goerror) :=
  match n with
  | O => ret (None, Some (retries_exhausted err))
  | S n' =>
      r <- connectDB dsn ;;
      let '(h, err) := r in
      match err with
      | None =>
          match h with
          | None => panic NilDereference
          | Some h =>
              call_ (EvSetMaxOpenConns h MaxOpenConns) (DB_SetMaxOpenConns h MaxOpenConns) ;;;
              call_ (EvSetMaxIdleConns h MaxIdleConns) (DB_SetMaxIdleConns h MaxIdleConns) ;;;
              call_ (EvSetConnMaxLifetime h ConnMaxLifetime)
                    (DB_SetConnMaxLifetime h ConnMaxLifetime) ;;;
              call_ (EvLogPrintln "Подключение к базе данных установлено") id ;;;
              ret (Some h, None)
          end
      | Some e =>
          call_ (EvSlogError "Не удалось подключиться к базе данных" (Some (i + 1)%Z) e) id ;;;
          call_ (EvSleep RetryInterval) (time_Sleep RetryInterval) ;;;
          InitDB_loop n' (i + 1) dsn (Some e)
      end
  end.

(** InitDB инициализирует подключение к базе данных и настраивает пул соединений *)
Definition InitDB (dsn : string) : Go (option DB * goerror) :=
  InitDB_loop (Z.to_nat MaxRetries) 0 dsn None.

(** CloseDB закрывает подключение к базе данных *)
Definition CloseDB (h : DB) : Go goerror :=
  err <- call (EvClose h) (DB_Close h) ;;
  match err with
  | Some e =>
      call_ (EvSlogError "Ошибка при закрытии соединения с базой данных" None e) id ;;;
      ret (Some e)
  | None => ret None
  end.

(** The method [PrepareNamedContext] of a [Queryer], dispatched on its
    dynamic type. *)
Definition PrepareNamedContext (queryer : Queryer) (ctx : Context) (query : string)
    : Go (NamedStmt + error) :=
  call (EvPrepareNamed queryer ctx query)
    match queryer with
    | Queryer_DB h => DB_PrepareNamedContext h ctx query
    | Queryer_Tx t => Tx_PrepareNamedContext t ctx query
    end.

(** The methods of a [*sqlx.NamedStmt] and of a [sql.Result]. *)
Definition stmt_SelectContext (stmt : NamedStmt) (ctx : Context) (t : dest_type)
    (dest : dest_val t) (params : Params) : Go (dest_val t * goerror) :=
  call (EvSelect stmt ctx params) (NamedStmt_SelectContext stmt ctx t dest params).

Definition stmt_GetContext (stmt : NamedStmt) (ctx : Context) (t : dest_type)
    (dest : dest_val t) (params : Params) : Go (dest_val t * goerror) :=
  call (EvGet stmt ctx params) (NamedStmt_GetContext stmt ctx t dest params).

Definition stmt_ExecContext (stmt : NamedStmt) (ctx : Context) (params : Params)
    : Go (Result + error) :=
  call (EvExec stmt ctx params) (NamedStmt_ExecContext stmt ctx params).

Definition stmt_Close (stmt : NamedStmt) : Go goerror :=
  call (EvStmtClose stmt) (NamedStmt_Close stmt).

Definition res_RowsAffected (res : Result) : Go (Z * goerror) :=
  call (EvRowsAffected res) (Result_RowsAffected res).

(** QueryMultiple выполняет запрос и сканирует результаты в предоставленный срез.
    [dest] is what the destination holds at the call; the first component
    of the result is what it holds afterwards. *)
Definition QueryMultiple (ctx : Context) (queryer : Queryer) (query : string)
    (params : Params) (t : dest_type) (dest : dest_val t) : Go (dest_val t * goerror) :=
  r <- PrepareNamedContext queryer ctx query ;;
  match r with
  | inr err => ret (dest, Some (Errorf_prefix_w "ошибка подготовки запроса: " err))
  | inl stmt =>
      defer_call (stmt_Close stmt)
        (r <- stmt_SelectContext stmt ctx t dest params ;;
         let '(dest, err) := r in
         match err with
         | Some err =>
             if errors_Is err sql_ErrNoRows then ret (dest, Some (Sentinel ErrNotFound))
             else ret (dest, Some (Errorf_w_suffix ErrInternal (": " ++ Error err)))
         | None => ret (dest, None)
         end)
  end.

Definition QuerySingle (ctx : Context) (queryer : Queryer) (query : string)
    (params : Params) (t : dest_type) (dest : dest_val t) : Go (dest_val t * goerror) :=
  r <- PrepareNamedContext queryer ctx query ;;
  match r with
  | inr err => ret (dest, Some (Errorf_prefix_w "ошибка подготовки запроса: " err))
  | inl stmt =>
      defer_call (stmt_Close stmt)
        (r <- stmt_GetContext stmt ctx t dest params ;;
         let '(dest, err) := r in
         match err with
         | Some err =>
             if errors_Is err sql_ErrNoRows then ret (dest, Some (Sentinel ErrNotFound))
             else ret (dest, Some (Errorf_w_suffix ErrInternal (": " ++ Error err)))
         | None => ret (dest, None)
         end)
  end.

(** InsertRecord выполняет вставку новой записи в таблицу и возвращает ID. *)
Definition InsertRecord (ctx : Context) (queryer : Queryer) (query : string)
    (params : Params) : Go (Z * goerror) :=
  r <- QueryMultiple ctx queryer query params (t_slice t_int64) [] ;;
  let '(ids, err) := r in
  match err with
  | Some err => ret (0%Z, Some err)
  | None =>
      if (0 <? Z.of_nat (length ids))%Z then
        id0 <- index ids 0 ;;
        ret (id0, None)
      else ret (0%Z, Some (Errorf_w_suffix ErrInternal ": запись не добавлена"))
  end.

(** UpdateRecord выполняет обновление записи в таблице. *)
Definition UpdateRecord (ctx : Context) (queryer : Queryer) (query : string)
    (params : Params) : Go goerror :=
  r <- PrepareNamedContext queryer ctx query ;;
  match r with
  | inr err => ret (Some (Errorf_prefix_w "ошибка подготовки запроса: " err))
  | inl stmt =>
      defer_call (stmt_Close stmt)
        (r <- stmt_ExecContext stmt ctx params ;;
         match r with
         | inr err => ret (Some (Errorf_w_suffix ErrInternal (": " ++ Error err)))
         | inl res =>
             r <- res_RowsAffected res ;;
             let '(rowsAffected, err) := r in
             match err with
             | Some err => ret (Some (Errorf_w_suffix ErrInternal (": " ++ Error err)))
             | None =>
                 if (rowsAffected <? 1)%Z then ret (Some (Errorf_w_suffix ErrInternal ": запись не обновлена"))
                 else ret None
             end
         end)
  end.

(** UpdateRecordWithResultId выполняет обновление записи в таблице и возвращает ID записи *)
Definition UpdateRecordWithResultId (ctx : Context) (queryer : Queryer) (query : string)
    (params : Params) : Go (Z * goerror) :=
  InsertRecord ctx queryer query params.

(** UpdateRecordWithResultListId выполняет обновление записей и возвращает их ID *)
Definition UpdateRecordWithResultListId (ctx : Context) (queryer : Queryer)
    (query : string) (params : Params) : Go (list OnlyId * goerror) :=
  r <- QueryMultiple ctx queryer query params (t_slice t_OnlyId) [] ;;
  let '(ids, err) := r in
  match err with
  | Some err => ret ([], Some err)
  | None =>
      if (0 <? Z.of_nat (length ids))%Z then ret (ids, None)
      else ret ([], Some (Sentinel ErrNotUpdated))
  end.

(** DeleteRecord выполняет удаление записи из таблицы. *)
Definition DeleteRecord (ctx : Context) (queryer : Queryer) (query : string)
    (params : Params) : Go goerror :=
  r <- PrepareNamedContext queryer ctx query ;;
  match r with
  | inr err => ret (Some (Errorf_prefix_w "ошибка подготовки запроса: " err))
  | inl stmt =>
      defer_call (stmt_Close stmt)
        (r <- stmt_ExecContext stmt ctx params ;;
         match r with
         | inr err => ret (Some (Errorf_w_suffix ErrInternal (": " ++ Error err)))
         | inl res =>
             r <- res_RowsAffected res ;;
             let '(rowsAffected, err) := r in
             match err with
             | Some err => ret (Some (Errorf_w_suffix ErrInternal (": " ++ Error err)))
             | None =>
                 if (rowsAffected <? 1)%Z then ret (Some (Sentinel ErrNotFound))
                 else ret None
             end
         end)
  end.

(** CheckExistence проверяет, существует ли запись с заданными параметрами. *)
Definition CheckExistence (ctx : Context) (queryer : Queryer) (query : string)
    (params : Params) : Go (bool * goerror) :=
  r <- QuerySingle ctx queryer query params t_bool false ;;
  let '(exists_, err) := r in
  match err with
  | Some err =>
      if errors_Is err sql_ErrNoRows then ret (false, None)
      else ret (false, Some (Errorf_w_suffix ErrInternal (": " ++ Error err)))
  | None => ret (exists_, None)
  end.

(** [fmt.Sprintf(`SELECT EXISTS(%s) AS ex`, query)] *)
Definition existsQuery (query : string) : string :=
  "SELECT EXISTS(" ++ query ++ ") AS ex".

(** CheckExistenceWithError проверяет, существует ли запись с заданными
    параметрами и возвращает ошибку, если она существует *)
Definition CheckExistenceWithError (ctx : Context) (queryer : Queryer) (query : string)
    (params : Params) : Go goerror :=
  r <- CheckExistence ctx queryer (existsQuery query) params ;;
  let '(exists_, err) := r in
  match err with
  | Some err => ret (Some err)
  | None => if exists_ then ret (Some (Sentinel ErrAlreadyExists)) else ret None
  end.

(** AddRecord Добавление записи и возврат id добавленной *)
Definition AddRecord (ctx : Context) (queryer : Queryer) (query : string)
    (params : Params) : Go (Z * goerror) :=
  r <- QueryMultiple ctx queryer query params (t_slice t_OnlyId) [] ;;
  let '(res, err) := r in
  match err with
  | Some err => ret (0%Z, Some (Errorf_prefix_w "ошибка добавления: " err))
  | None =>
      r0 <- index res 0 ;;
      ret (Id r0, None)
  end.

(** ExecuteNonQuery Обновление/удаление данных (запрос без возврта значений) *)
Definition ExecuteNonQuery (qCtx : Context) (queryer : Queryer) (query : string)
    (params : Params) : Go goerror :=
  r <- PrepareNamedContext queryer qCtx query ;;
  match r with
  | inr err => ret (Some (Errorf_prefix_w "ошибка подготовки запроса: " err))
  | inl stmt =>
      defer_call (stmt_Close stmt)
        (r <- stmt_ExecContext stmt qCtx params ;;
         match r with
         | inr err => ret (Some (Errorf_w_suffix ErrInternal (": " ++ Error err)))
         | inl res =>
             r <- res_RowsAffected res ;;
             let '(rowsAffected, err) := r in
             match err with
             | Some err => ret (Some (Errorf_w_suffix ErrInternal (": " ++ Error err)))
             | None =>
                 if (rowsAffected <? 1)%Z then ret (Some (Errorf_w_suffix ErrNotFound ": действие не выполнено"))
                 else ret None
             end
         end)
  end.

End Postgres.

(** A computation of the package, over the [Driver] in scope. *)
Abbreviation Go := (M State).

(* ------------------------------------------------------------------ *)
(** ** Vocabulary of the statements *)
(* ------------------------------------------------------------------ *)

Local Open Scope list_scope.

(** What the log tells about the retry loop: an attempt is a call of
    [sqlx.Open], a wait is a call of [time.Sleep]. *)
Inductive tick : Set := Attempt | Wait (d : Z).

Definition tick_of (ev : event) : option tick :=
  match ev with
  | EvOpen _ _ => Some Attempt
  | EvSleep d => Some (Wait d)
  | _ => None
  end.

Definition ticks (l : list event) : list tick := omap tick_of l.

(** [k] failed attempts, each followed by its wait. *)
Fixpoint rounds (k : nat) : list tick :=
  match k with
  | O => []
  | S k' => Attempt :: Wait RetryInterval :: rounds k'
  end.

Section Vocabulary.
Context `{Drv : Driver}.
Implicit Types (s : State) (dsn : string) (u : PostgresUnitOfWork) (t : Tx) (uow : uowptr).

(** The state in which [Do] invokes [fn]: the transaction [t] has been
    begun, leaving the world [w], and [uow.tx] holds it. *)
Definition begun (ctx : Context) uow u t (w : World) s : State :=
  stored uow {| db := db u; tx := Some t |} (logged (EvBeginTxx (db u) ctx) w s).

(** The state after the failure [e] of attempt [i] (counted from 0) has
    been reported and the loop has slept. *)
Definition waited (i : Z) (e : error) s : State :=
  logged (EvSleep RetryInterval) (time_Sleep RetryInterval (world s))
    (logged (EvSlogError "Не удалось подключиться к базе данных" (Some (i + 1)%Z) e)
       (world s) s).

(** The state after the pool of [h] has been configured. *)
Definition configured (h : DB) s : State :=
  let w1 := DB_SetMaxOpenConns h MaxOpenConns (world s) in
  let w2 := DB_SetMaxIdleConns h MaxIdleConns w1 in
  let w3 := DB_SetConnMaxLifetime h ConnMaxLifetime w2 in
  logged (EvLogPrintln "Подключение к базе данных установлено") w3
    (logged (EvSetConnMaxLifetime h ConnMaxLifetime) w3
       (logged (EvSetMaxIdleConns h MaxIdleConns) w2
          (logged (EvSetMaxOpenConns h MaxOpenConns) w1 s))).

(** The database stays unreachable for [k] attempts in a row, starting
    with attempt [i] in state [s]: the state and the last failure after
    them, if so. *)
Fixpoint fail_run dsn (k : nat) (i : Z) s (last : goerror) : option (State * goerror) :=
  match k with
  | O => Some (s, last)
  | S k' =>
      match connectDB dsn s with
      | (Ret (_, Some e), s1) => fail_run dsn k' (i + 1) (waited i e s1) (Some e)
      | _ => None
      end
  end.

(** The error [e0] that [sqlx.Open], or else the health check of the
    connection it opened, reports in state [s]. *)
Definition library_failure dsn s (e0 : error) : Prop :=
  fst (sqlx_Open "pgx" dsn (world s)) = Ret (inr e0)
  \/ exists h w,
       sqlx_Open "pgx" dsn (world s) = (Ret (inl h), w)
       /\ fst (DB_PingContext h (WithTimeout Background (5 * Second)) w) = Ret (Some e0).

(** The state in which attempt [k] (counted from 0) starts when all the
    attempts before it fail. *)
Definition before_attempt dsn (k : nat) s : State :=
  match fail_run dsn k 0 s None with
  | Some (s', _) => s'
  | None => s
  end.

Definition last_failure dsn (k : nat) s : goerror :=
  match fail_run dsn k 0 s None with
  | Some (_, e) => e
  | None => None
  end.

End Vocabulary.

(* ------------------------------------------------------------------ *)
(** ** A simulated server *)
(* ------------------------------------------------------------------ *)

(** A small executable [Driver], used to run the package on concrete
    inputs.  A [Script] fixes what the server answers; the world counts
    connections, remembers the text of every prepared statement and the
    status of every transaction. *)
Module Sim.

Inductive tx_status : Set := Active | Committed | RolledBack.

Record Script : Type := mkScript {
  (* the health check of the n-th connection opened, counted from 0 *)
  ping : nat -> goerror;
  (* the rows a query yields, by destination type *)
  rows_int64 : string -> list Z * goerror;
  rows_OnlyId : string -> list OnlyId * goerror;
  row_bool : string -> bool * goerror;
  (* the number of rows a statement affects *)
  affected : string -> Z;
}.

Record SimWorld : Type := mkWorld {
  opened : nat;
  slept : Z;
  stmts : list string;
  txs : list tx_status;
  pool : option (Z * Z * Z);
}.

Definition empty : SimWorld :=
  {| opened := 0; slept := 0; stmts := []; txs := []; pool := None |}.

(** [sql.ErrTxDone] *)
Definition ErrTxDone : error :=
  OtherError "sql: transaction has already been committed or rolled back".

Definition unsupported : error := OtherError "sqlx: unsupported destination".

Definition set_txs (l : list tx_status) (w : SimWorld) : SimWorld :=
  {| opened := opened w; slept := slept w; stmts := stmts w; txs := l; pool := pool w |}.

Definition set_pool (f : Z * Z * Z -> Z * Z * Z) (w : SimWorld) : SimWorld :=
  {| opened := opened w; slept := slept w; stmts := stmts w; txs := txs w;
     pool := Some (f (default (0, 0, 0)%Z (pool w))) |}.

Definition open (w : SimWorld) : outcome (DB + error) * SimWorld :=
  (Ret (inl (DBHandle (N.of_nat (opened w)))),
   {| opened := S (opened w); slept := slept w; stmts := stmts w; txs := txs w;
      pool := pool w |}).

Definition begin (w : SimWorld) : outcome (Tx + error) * SimWorld :=
  (Ret (inl (TxHandle (N.of_nat (length (txs w))))), set_txs (txs w ++ [Active]) w).

Definition finish (st : tx_status) (t : Tx) (w : SimWorld) : outcome goerror * SimWorld :=
  let 'TxHandle n := t in
  match txs w !! N.to_nat n with
  | Some Active => (Ret None, set_txs (<[N.to_nat n := st]> (txs w)) w)
  | _ => (Ret (Some ErrTxDone), w)
  end.

Definition prepare (query : string) (w : SimWorld) : outcome (NamedStmt + error) * SimWorld :=
  (Ret (inl (StmtHandle (N.of_nat (length (stmts w))))),
   {| opened := opened w; slept := slept w; stmts := stmts w ++ [query]; txs := txs w;
      pool := pool w |}).

Definition prepare_tx (t : Tx) (query : string) (w : SimWorld)
    : outcome (NamedStmt + error) * SimWorld :=
  let 'TxHandle n := t in
  match txs w !! N.to_nat n with
  | Some Active => prepare query w
  | _ => (Ret (inr ErrTxDone), w)
  end.

Definition text (stmt : NamedStmt) (w : SimWorld) : string :=
  let 'StmtHandle n := stmt in default EmptyString (stmts w !! N.to_nat n).

Definition select (sc : Script) (query : string) (t : dest_type)
    : dest_val t -> dest_val t * goerror :=
  match t as t0 return dest_val t0 -> dest_val t0 * goerror with
  | t_slice t' =>
      match t' as t1 return dest_val (t_slice t1) -> dest_val (t_slice t1) * goerror with
      | t_int64 => fun _ => rows_int64 sc query
      | t_OnlyId => fun _ => rows_OnlyId sc query
      | _ => fun dest => (dest, Some unsupported)
      end
  | _ => fun dest => (dest, Some unsupported)
  end.

Definition get (sc : Script) (query : string) (t : dest_type)
    : dest_val t -> dest_val t * goerror :=
  match t as t0 return dest_val t0 -> dest_val t0 * goerror with
  | t_bool => fun _ => row_bool sc query
  | _ => fun dest => (dest, Some unsupported)
  end.

Definition driver (sc : Script) : Driver := {|
  World := SimWorld;
  sqlx_Open _ _ := open;
  DB_PingContext h _ w := let 'DBHandle n := h in (Ret (ping sc (N.to_nat n)), w);
  DB_SetMaxOpenConns _ n := set_pool (fun '(_, i, l) => (n, i, l));
  DB_SetMaxIdleConns _ n := set_pool (fun '(o, _, l) => (o, n, l));
  DB_SetConnMaxLifetime _ d := set_pool (fun '(o, i, _) => (o, i, d));
  DB_Close _ w := (Ret None, w);
  DB_BeginTxx _ _ := begin;
  Tx_Commit := finish Committed;
  Tx_Rollback := finish RolledBack;
  DB_PrepareNamedContext _ _ := prepare;
  Tx_PrepareNamedContext t _ := prepare_tx t;
  NamedStmt_SelectContext stmt _ t dest _ w := (Ret (select sc (text stmt w) t dest), w);
  NamedStmt_GetContext stmt _ t dest _ w := (Ret (get sc (text stmt w) t dest), w);
  NamedStmt_ExecContext stmt _ _ w :=
    let 'StmtHandle n := stmt in (Ret (inl (ResultHandle n)), w);
  NamedStmt_Close _ w := (Ret None, w);
  Result_RowsAffected res w :=
    let 'ResultHandle n := res in (Ret (affected sc (text (StmtHandle n) w), None), w);
  time_Sleep d w :=
    {| opened := opened w; slept := (slept w + d)%Z; stmts := stmts w; txs := txs w;
       pool := pool w |};
|}.

(** The state before the program has done anything. *)
Definition init (sc : Script) : @State (driver sc) :=
  @mkState (driver sc) empty ∅ [].

(** A server that is reachable and holds no data. *)
Definition quiet : Script := {|
  ping _ := None;
  rows_int64 _ := ([], None);
  rows_OnlyId _ := ([], None);
  row_bool _ := (false, None);
  affected _ := 0%Z;
|}.

End Sim.

(* ------------------------------------------------------------------ *)
(** ** Concrete servers and inputs *)
(* ------------------------------------------------------------------ *)

Module Scenario.

(** The database refuses the first three connections. *)
Definition refused : error := OtherError "dial tcp 127.0.0.1:5432: connect: connection refused".

Definition flaky : Sim.Script := {|
  Sim.ping n := if (n <? 3)%nat then Some refused else None;
  Sim.rows_int64 _ := ([], None);
  Sim.rows_OnlyId _ := ([], None);
  Sim.row_bool _ := (false, None);
  Sim.affected _ := 0%Z;
|}.

(** The database refuses every connection. *)
Definition down : Sim.Script := {|
  Sim.ping _ := Some refused;
  Sim.rows_int64 _ := ([], None);
  Sim.rows_OnlyId _ := ([], None);
  Sim.row_bool _ := (false, None);
  Sim.affected _ := 0%Z;
|}.

(** A server on which a single-row query finds no row. *)
Definition no_rows : Sim.Script := {|
  Sim.ping _ := None;
  Sim.rows_int64 _ := ([], None);
  Sim.rows_OnlyId _ := ([], None);
  Sim.row_bool _ := (false, Some (Sentinel sql_ErrNoRows));
  Sim.affected _ := 0%Z;
|}.

Definition insert_olga : string :=
  "insert into public.test_table (name) values (:name) returning id".
Definition delete_2 : string := "delete from public.test_table where id = 2".
Definition delete_99 : string := "delete from public.test_table where id = 99".
Definition select_false : string := "select false".

(** A server that answers a handful of statements the way PostgreSQL
    does on the table of the migration: [select false] yields one row
    holding false, so [EXISTS] over it is true. *)
Definition testdb : Sim.Script := {|
  Sim.ping _ := None;
  Sim.rows_int64 q := if decide (q = insert_olga) then ([5%Z], None) else ([], None);
  Sim.rows_OnlyId q :=
    if decide (q = insert_olga) then ([{| Id := 5 |}], None) else ([], None);
  Sim.row_bool q :=
    if decide (q = existsQuery select_false) then (true, None) else (false, None);
  Sim.affected q := if decide (q = delete_2) then 1%Z else 0%Z;
|}.

Definition quiet_driver : Driver := Sim.driver Sim.quiet.
Definition flaky_driver : Driver := Sim.driver flaky.
Definition down_driver : Driver := Sim.driver down.
Definition no_rows_driver : Driver := Sim.driver no_rows.
Definition testdb_driver : Driver := Sim.driver testdb.

(** The pool every run starts from. *)
Definition pool : Queryer := Queryer_DB (DBHandle 0).

(** The unit of work [1] over the pool, before any [Do]. *)
Definition fresh_uow : @State quiet_driver :=
  snd (NewUnitOfWork (DBHandle 0) (Sim.init Sim.quiet)).

Definition fn_ok : uowptr -> M (@State quiet_driver) goerror := fun _ => ret None.
Definition fn_err : uowptr -> M (@State quiet_driver) goerror := fun _ => ret (Some (Sentinel ErrInvalidParams)).
Definition fn_panic : uowptr -> M (@State quiet_driver) goerror := fun _ => panic (PanicString "boom").

(** A transaction that inserts through the queryer of the unit of work. *)
Definition fn_insert : uowptr -> M (@State quiet_driver) goerror := fun uow =>
  q <- GetQueryer uow ;;
  r <- UpdateRecordWithResultListId Background q "update t set n = 1 returning id" ∅ ;;
  ret None.

Definition exists_by_id : string :=
  "select true from public.test_table t where t.id = :idTestTable".

Definition id_99 : Params := {[ "idTestTable" := VInt 99 ]}.

Definition olga : Params := {[ "name" := VString "Olga" ]}.

Definition five_seconds : Z := 5000000000.

End Scenario.

(* ------------------------------------------------------------------ *)
(** ** A server with failures *)
(* ------------------------------------------------------------------ *)

(** The simulated server again, with the failures the libraries can
    report besides: an error of [sqlx.Open], [BeginTxx],
    [PrepareNamedContext], [ExecContext] or [RowsAffected], each chosen by
    the text of the statement. *)
Module Faulty.

Record Faults : Type := mkFaults {
  open_error : goerror;
  begin_error : goerror;
  prepare_error : string -> goerror;
  exec_error : string -> goerror;
  rows_affected_error : string -> goerror;
}.

Definition none : Faults := {|
  open_error := None;
  begin_error := None;
  prepare_error _ := None;
  exec_error _ := None;
  rows_affected_error _ := None;
|}.

Definition or_fail {A} (e : goerror) (f : Sim.SimWorld -> outcome (A + error) * Sim.SimWorld)
    (w : Sim.SimWorld) : outcome (A + error) * Sim.SimWorld :=
  match e with
  | Some e => (Ret (inr e), w)
  | None => f w
  end.

Definition driver (sc : Sim.Script) (f : Faults) : Driver := {|
  World := Sim.SimWorld;
  sqlx_Open _ _ := or_fail (open_error f) Sim.open;
  DB_PingContext h _ w := let 'DBHandle n := h in (Ret (Sim.ping sc (N.to_nat n)), w);
  DB_SetMaxOpenConns _ n := Sim.set_pool (fun '(_, i, l) => (n, i, l));
  DB_SetMaxIdleConns _ n := Sim.set_pool (fun '(o, _, l) => (o, n, l));
  DB_SetConnMaxLifetime _ d := Sim.set_pool (fun '(o, i, _) => (o, i, d));
  DB_Close _ w := (Ret None, w);
  DB_BeginTxx _ _ := or_fail (begin_error f) Sim.begin;
  Tx_Commit := Sim.finish Sim.Committed;
  Tx_Rollback := Sim.finish Sim.RolledBack;
  DB_PrepareNamedContext _ _ q := or_fail (prepare_error f q) (Sim.prepare q);
  Tx_PrepareNamedContext t _ q := or_fail (prepare_error f q) (Sim.prepare_tx t q);
  NamedStmt_SelectContext stmt _ t dest _ w :=
    (Ret (Sim.select sc (Sim.text stmt w) t dest), w);
  NamedStmt_GetContext stmt _ t dest _ w := (Ret (Sim.get sc (Sim.text stmt w) t dest), w);
  NamedStmt_ExecContext stmt _ _ w :=
    let 'StmtHandle n := stmt in
    match exec_error f (Sim.text stmt w) with
    | Some e => (Ret (inr e), w)
    | None => (Ret (inl (ResultHandle n)), w)
    end;
  NamedStmt_Close _ w := (Ret None, w);
  Result_RowsAffected res w :=
    let 'ResultHandle n := res in
    (Ret (Sim.affected sc (Sim.text (StmtHandle n) w),
          rows_affected_error f (Sim.text (StmtHandle n) w)), w);
  time_Sleep d w :=
    {| Sim.opened := Sim.opened w; Sim.slept := (Sim.slept w + d)%Z;
       Sim.stmts := Sim.stmts w; Sim.txs := Sim.txs w; Sim.pool := Sim.pool w |};
|}.

Definition init (sc : Sim.Script) (f : Faults) : @State (driver sc f) :=
  @mkState (driver sc f) Sim.empty ∅ [].

End Faulty.

Module Cases.
Import Scenario.

(** The connection is lost while rows are read. *)
Definition reset : error := OtherError "read tcp 127.0.0.1:5432: connection reset by peer".

Definition select_all : string := "select t.id from public.test_table t".
Definition select_none : string := "select t.id from public.test_table t where false".

(** A server whose reads fail: with [sql.ErrNoRows] on [select_none],
    with a lost connection on any other statement. *)
Definition unreadable : Sim.Script := {|
  Sim.ping _ := None;
  Sim.rows_int64 q :=
    if decide (q = select_none) then ([], Some (Sentinel sql_ErrNoRows))
    else ([], Some reset);
  Sim.rows_OnlyId q :=
    if decide (q = select_none) then ([], Some (Sentinel sql_ErrNoRows))
    else ([], Some reset);
  Sim.row_bool q :=
    if decide (q = select_none) then (false, Some (Sentinel sql_ErrNoRows))
    else (false, Some reset);
  Sim.affected _ := 0%Z;
|}.

(** The database refuses the first 49 connections. *)
Definition late : Sim.Script := {|
  Sim.ping n := if (n <? 49)%nat then Some refused else None;
  Sim.rows_int64 _ := ([], None);
  Sim.rows_OnlyId _ := ([], None);
  Sim.row_bool _ := (false, None);
  Sim.affected _ := 0%Z;
|}.

Definition unreadable_driver : Driver := Sim.driver unreadable.
Definition late_driver : Driver := Sim.driver late.

(** The pool has no connection left for a transaction. *)
Definition too_many : error := OtherError "pq: sorry, too many clients already".

Definition no_tx : Faulty.Faults := {|
  Faulty.open_error := None;
  Faulty.begin_error := Some too_many;
  Faulty.prepare_error _ := None;
  Faulty.exec_error _ := None;
  Faulty.rows_affected_error _ := None;
|}.

Definition no_tx_driver : Driver := Faulty.driver Sim.quiet no_tx.

(** Preparing fails with an error that wraps [sql.ErrNoRows]. *)
Definition prepare_no_rows : Faulty.Faults := {|
  Faulty.open_error := None;
  Faulty.begin_error := None;
  Faulty.prepare_error _ := Some (wrapError "prepare: sql: no rows in result set" sql_ErrNoRows);
  Faulty.exec_error _ := None;
  Faulty.rows_affected_error _ := None;
|}.

Definition prepare_no_rows_driver : Driver := Faulty.driver Sim.quiet prepare_no_rows.

(** Executing fails on a violated constraint. *)
Definition constraint : error :=
  OtherError "ERROR: update or delete on table violates foreign key constraint (SQLSTATE 23503)".

Definition no_exec : Faulty.Faults := {|
  Faulty.open_error := None;
  Faulty.begin_error := None;
  Faulty.prepare_error _ := None;
  Faulty.exec_error _ := Some constraint;
  Faulty.rows_affected_error _ := None;
|}.

Definition no_exec_driver : Driver := Faulty.driver testdb no_exec.

(** The unit of work [1] over the pool of the server without transactions. *)
Definition fresh_uow_no_tx : @State no_tx_driver :=
  snd (NewUnitOfWork (DBHandle 0) (Faulty.init Sim.quiet no_tx)).

(** A function that would insert, were it called. *)
Definition fn_never : uowptr -> M (@State no_tx_driver) goerror := fun uow =>
  q <- GetQueryer uow ;;
  r <- InsertRecord Background q insert_olga olga ;;
  ret (snd r).

(** What a transaction does with its queryer: one insert. *)
Definition insert_with (q : Queryer) : M (@State testdb_driver) goerror :=
  r <- InsertRecord Background q insert_olga olga ;;
  ret (snd r).

(** The unit of work [1] over the pool of the test database. *)
Definition fresh_uow_testdb : @State testdb_driver :=
  snd (NewUnitOfWork (DBHandle 0) (Sim.init testdb)).

End Cases.

(* ------------------------------------------------------------------ *)
(** ** More vocabulary *)
(* ------------------------------------------------------------------ *)

(** The statement a successful [PrepareNamedContext] has returned. *)
Definition prepared (r : outcome (NamedStmt + error)) : option NamedStmt :=
  match r with
  | Ret (inl stmt) => Some stmt
  | _ => None
  end.

(** The library calls of a helper that executes a statement: prepare
    alone when preparing fails; otherwise prepare, execute, the count of
    affected rows when executing gave a result, and close. *)
Definition exec_calls (queryer : Queryer) (ctx : Context) (query : string)
    (params : Params) (stmt : option NamedStmt) (l : list event) : Prop :=
  match stmt with
  | None => l = [EvPrepareNamed queryer ctx query]
  | Some stmt =>
      l = [EvPrepareNamed queryer ctx query; EvExec stmt ctx params; EvStmtClose stmt]
      \/ exists res,
           l = [EvPrepareNamed queryer ctx query; EvExec stmt ctx params;
                EvRowsAffected res; EvStmtClose stmt]
  end.

(** Two results that [errors.Is] cannot tell apart. *)
Definition same_kind (a b : goerror) : Prop :=
  match a, b with
  | None, None => True
  | Some x, Some y => forall target, errors_Is x target = errors_Is y target
  | _, _ => False
  end.

Definition same_outcome (a b : outcome goerror) : Prop :=
  match a, b with
  | Ret x, Ret y => same_kind x y
  | Panic p, Panic q => p = q
  | _, _ => False
  end.

Definition is_close (ev : event) : bool :=
  match ev with
  | EvClose _ => true
  | _ => false
  end.

(** The time slept, in nanoseconds. *)
Fixpoint total_wait (l : list tick) : Z :=
  match l with
  | [] => 0
  | Attempt :: l' => total_wait l'
  | Wait d :: l' => d + total_wait l'
  end.

(* ------------------------------------------------------------------ *)
(** ** Running computations *)
(* ------------------------------------------------------------------ *)

Section Steps.
Context {S : Type}.

Lemma bind_Ret {A B} (m : M S A) (k : A -> M S B) s a s' :
  m s = (Ret a, s') -> bind m k s = k a s'.
Proof. unfold bind. intros ->. reflexivity. Qed.

Lemma bind_Panic {A B} (m : M S A) (k : A -> M S B) s p s' :
  m s = (Panic p, s') -> bind m k s = (Panic p, s').
Proof. unfold bind. intros ->. reflexivity. Qed.

Lemma defer_call_Ret {A B} (d : M S B) (body : M S A) s r s1 x s2 :
  body s = (r, s1) -> d s1 = (Ret x, s2) -> defer_call d body s = (r, s2).
Proof. unfold defer_call. intros -> ->. reflexivity. Qed.

Lemma defer_call_Panic {A B} (d : M S B) (body : M S A) s r s1 p s2 :
  body s = (r, s1) -> d s1 = (Panic p, s2) -> defer_call d body s = (Panic p, s2).
Proof. unfold defer_call. intros -> ->. reflexivity. Qed.

Lemma index_0_cons {A} (x : A) (l : list A) (s : S) : index (x :: l) 0 s = (Ret x, s).
Proof. reflexivity. Qed.

Lemma index_0_nil {A} (s : S) : index (@nil A) 0 s = (Panic (IndexOutOfRange 0 0), s).
Proof. reflexivity. Qed.

End Steps.

(* ------------------------------------------------------------------ *)
(** ** The unit of work *)
(* ------------------------------------------------------------------ *)

Section UnitOfWork.
Context `{Drv : Driver}.
Implicit Types (s : State) (u : PostgresUnitOfWork) (t : Tx) (uow : uowptr).

Lemma call_eq {A} (ev : event) (f : World -> outcome A * World) s :
  call ev f s = (fst (f (world s)), logged ev (snd (f (world s))) s).
Proof. unfold call. destruct (f (world s)); reflexivity. Qed.

Lemma Do_begun ctx uow (fn : uowptr -> Go goerror) s u t w :
  uows s !! uow = Some u ->
  DB_BeginTxx (db u) ctx (world s) = (Ret (inl t), w) ->
  Do ctx uow fn s =
    match fn uow (begun ctx uow u t w s) with
    | (Ret None, s2) => call (EvCommit t) (Tx_Commit t) s2
    | (Ret (Some e), s2) =>
        (call (EvRollback t) (Tx_Rollback t) ;;; ret (Some e)) s2
    | (Panic p, s2) =>
        (call (EvRollback t) (Tx_Rollback t) ;;; panic p) s2
    end.
Proof.
  intros Hu Hb. unfold Do.
  rewrite (bind_Ret _ _ s u s) by (unfold load; rewrite Hu; reflexivity).
  rewrite (bind_Ret _ _ s (inl t) (logged (EvBeginTxx (db u) ctx) w s))
    by (rewrite call_eq, Hb; reflexivity).
  erewrite bind_Ret; last first.
  { unfold store_tx. erewrite bind_Ret; [reflexivity|].
    unfold load, logged; simpl. rewrite Hu. reflexivity. }
  unfold defer_func, begun.
  destruct (fn uow _) as [[[e|]|p] s2]; reflexivity.
Qed.

(** C1. For every call [Do(ctx, fn)] whose [BeginTxx] succeeds with the
    transaction [t]: when [fn] returns nil, [Do] ends with the call
    [t.Commit()] (and returns what it returns); when [fn] returns the
    error [e], [Do] ends with the call [t.Rollback()] and returns that
    same [e]. *)
Theorem Do_commits_or_rolls_back ctx uow (fn : uowptr -> Go goerror) s u t w err s2 :
  uows s !! uow = Some u ->
  DB_BeginTxx (db u) ctx (world s) = (Ret (inl t), w) ->
  fn uow (begun ctx uow u t w s) = (Ret err, s2) ->
  match err with
  | None =>
      Do ctx uow fn s =
        (fst (Tx_Commit t (world s2)),
         logged (EvCommit t) (snd (Tx_Commit t (world s2))) s2)
  | Some e =>
      Do ctx uow fn s =
        (match fst (Tx_Rollback t (world s2)) with
         | Ret _ => Ret (Some e)
         | Panic p => Panic p
         end,
         logged (EvRollback t) (snd (Tx_Rollback t (world s2))) s2)
  end.
Proof.
  intros Hu Hb Hfn. rewrite (Do_begun _ _ _ _ _ _ _ Hu Hb), Hfn.
  destruct err as [e|].
  - unfold bind. rewrite call_eq.
    destruct (Tx_Rollback t (world s2)) as [[r|p] w3]; reflexivity.
  - apply call_eq.
Qed.

(** C2. For every call [Do(ctx, fn)] in which [fn] panics with [p] after
    the transaction [t] was begun, and [t.Rollback()] returns: [Do]
    panics with the same [p], in the state reached by the rollback, whose
    last library call is that rollback. *)
Theorem Do_rolls_back_then_repanics ctx uow (fn : uowptr -> Go goerror) s u t w p s2 r w3 :
  uows s !! uow = Some u ->
  DB_BeginTxx (db u) ctx (world s) = (Ret (inl t), w) ->
  fn uow (begun ctx uow u t w s) = (Panic p, s2) ->
  Tx_Rollback t (world s2) = (Ret r, w3) ->
  Do ctx uow fn s = (Panic p, logged (EvRollback t) w3 s2)
  /\ last (calls (snd (Do ctx uow fn s))) = Some (EvRollback t).
Proof.
  intros Hu Hb Hfn Hr.
  assert (Do ctx uow fn s = (Panic p, logged (EvRollback t) w3 s2)) as ->.
  { rewrite (Do_begun _ _ _ _ _ _ _ Hu Hb), Hfn.
    unfold bind. rewrite call_eq, Hr. reflexivity. }
  split; [reflexivity|]. simpl. apply last_snoc.
Qed.

(** [Do] never writes [uow.tx] again once it has stored the transaction:
    whatever [fn] does, the objects are those [fn] left. *)
Lemma Do_keeps_uows ctx uow (fn : uowptr -> Go goerror) s u t w :
  uows s !! uow = Some u ->
  DB_BeginTxx (db u) ctx (world s) = (Ret (inl t), w) ->
  uows (snd (Do ctx uow fn s)) = uows (snd (fn uow (begun ctx uow u t w s))).
Proof.
  intros Hu Hb. rewrite (Do_begun _ _ _ _ _ _ _ Hu Hb).
  destruct (fn uow _) as [[[e|]|p] s2]; unfold bind; rewrite call_eq; simpl;
    try destruct (Tx_Rollback t (world s2)) as [[r|p'] w3]; reflexivity.
Qed.

(** So, unless [fn] itself changed the object, [GetQueryer] after [Do]
    still returns the transaction of that [Do], although it is finished. *)
Lemma GetQueryer_after_Do ctx uow (fn : uowptr -> Go goerror) s u t w :
  uows s !! uow = Some u ->
  DB_BeginTxx (db u) ctx (world s) = (Ret (inl t), w) ->
  uows (snd (fn uow (begun ctx uow u t w s))) = uows (begun ctx uow u t w s) ->
  fst (GetQueryer uow (snd (Do ctx uow fn s))) = Ret (Queryer_Tx t).
Proof.
  intros Hu Hb Hfn. unfold GetQueryer, bind, load.
  rewrite (Do_keeps_uows _ _ _ _ _ _ _ Hu Hb), Hfn. simpl.
  rewrite lookup_insert_eq. reflexivity.
Qed.

(** Inside [fn], [GetQueryer] returns the transaction [Do] has begun. *)
Lemma GetQueryer_inside_Do ctx uow s u t w :
  GetQueryer uow (begun ctx uow u t w s) = (Ret (Queryer_Tx t), begun ctx uow u t w s).
Proof.
  unfold GetQueryer, bind, load. simpl. rewrite lookup_insert_eq. reflexivity.
Qed.

(** On a new unit of work, [GetQueryer] returns the pool. *)
Lemma GetQueryer_new h s :
  (uow <- NewUnitOfWork h ;; GetQueryer uow) s
  = (Ret (Queryer_DB h), snd (NewUnitOfWork h s)).
Proof.
  unfold GetQueryer, NewUnitOfWork, bind, load. simpl.
  rewrite lookup_insert_eq. reflexivity.
Qed.

End UnitOfWork.

(* ------------------------------------------------------------------ *)
(** ** The query helpers *)
(* ------------------------------------------------------------------ *)

Section Helpers.
Context `{Drv : Driver}.
Implicit Types (s : State) (queryer : Queryer) (query : string) (params : Params).

(** Rewrite with the outcomes of the calls assumed in the context. *)
Ltac run :=
  repeat first
    [ progress cbn beta iota zeta
    | match goal with
      | H : ?m ?s = (_, _) |- context [?m ?s] => rewrite H
      end ].

Lemma Errorf_prefix_w_Is pre w target :
  errors_Is (Errorf_prefix_w pre w) target = errors_Is w target.
Proof. reflexivity. Qed.

Lemma Errorf_w_suffix_Is w post target :
  errors_Is (Errorf_w_suffix w post) target = errors_Is w target.
Proof. reflexivity. Qed.

(** What [QueryMultiple] returns once the statement is prepared and
    [SelectContext] reports no error. *)
Lemma QueryMultiple_ok ctx queryer query params t dest s stmt s1 dest' s2 c s3 :
  PrepareNamedContext queryer ctx query s = (Ret (inl stmt), s1) ->
  stmt_SelectContext stmt ctx t dest params s1 = (Ret (dest', None), s2) ->
  stmt_Close stmt s2 = (Ret c, s3) ->
  QueryMultiple ctx queryer query params t dest s = (Ret (dest', None), s3).
Proof.
  intros Hp Hs Hc. unfold QueryMultiple, bind, defer_call. run.
  unfold ret. run. reflexivity.
Qed.

(** [QuerySingle] replaces the no-rows error of the library by
    [ErrNotFound], which does not wrap it. *)
Lemma QuerySingle_no_rows ctx queryer query params t dest s stmt s1 dest' err s2 c s3 :
  PrepareNamedContext queryer ctx query s = (Ret (inl stmt), s1) ->
  stmt_GetContext stmt ctx t dest params s1 = (Ret (dest', Some err), s2) ->
  errors_Is err sql_ErrNoRows = true ->
  stmt_Close stmt s2 = (Ret c, s3) ->
  QuerySingle ctx queryer query params t dest s
  = (Ret (dest', Some (Sentinel ErrNotFound)), s3).
Proof.
  intros Hp Hg Hi Hc. unfold QuerySingle, bind, defer_call. run.
  rewrite Hi. unfold ret. run. reflexivity.
Qed.

(** Hence the no-rows branch of [CheckExistence] is not taken: the caller
    gets an error that is [ErrInternal]. *)
Lemma CheckExistence_no_rows ctx queryer query params s stmt s1 dest' err s2 c s3 :
  PrepareNamedContext queryer ctx query s = (Ret (inl stmt), s1) ->
  stmt_GetContext stmt ctx t_bool false params s1 = (Ret (dest', Some err), s2) ->
  errors_Is err sql_ErrNoRows = true ->
  stmt_Close stmt s2 = (Ret c, s3) ->
  CheckExistence ctx queryer query params s
  = (Ret (false, Some (Errorf_w_suffix ErrInternal ": data not found")), s3).
Proof.
  intros Hp Hg Hi Hc. unfold CheckExistence.
  erewrite bind_Ret by (eapply QuerySingle_no_rows; eassumption).
  reflexivity.
Qed.

(** An error returned by [CheckExistence] is always built around
    [ErrInternal]. *)
Lemma CheckExistence_error ctx queryer query params s b e :
  fst (CheckExistence ctx queryer query params s) = Ret (b, Some e) ->
  exists msg, e = wrapError msg ErrInternal.
Proof.
  unfold CheckExistence, bind.
  destruct (QuerySingle _ _ _ _ _ _ s) as [[[d [err|]]|p] s']; simpl.
  - destruct (errors_Is err sql_ErrNoRows); simpl; intros [= <- <-] || intros [=].
    eexists. reflexivity.
  - intros [=].
  - intros [=].
Qed.

Lemma InsertRecord_ok ctx queryer query params s (ids : list Z) s1 :
  QueryMultiple ctx queryer query params (t_slice t_int64) [] s = (Ret (ids, None), s1) ->
  InsertRecord ctx queryer query params s =
    match ids with
    | id0 :: _ => (Ret (id0, None), s1)
    | [] => (Ret (0%Z, Some (Errorf_w_suffix ErrInternal ": запись не добавлена")), s1)
    end.
Proof.
  intros Hq. unfold InsertRecord. erewrite bind_Ret by exact Hq.
  destruct ids as [|id0 ids]; reflexivity.
Qed.

(** C5, as amended. [CheckExistenceWithError] on a template returns
    [ErrAlreadyExists] exactly when [CheckExistence] on that template
    wrapped in [SELECT EXISTS(...) AS ex], with the same parameters and in
    the same state, returns true; it returns nil exactly when that check
    returns false without error; both leave the same state. *)
Theorem CheckExistenceWithError_iff_wrapped ctx queryer query params s :
  (fst (CheckExistenceWithError ctx queryer query params s)
     = Ret (Some (Sentinel ErrAlreadyExists))
   <-> fst (CheckExistence ctx queryer (existsQuery query) params s) = Ret (true, None))
  /\ (fst (CheckExistenceWithError ctx queryer query params s) = Ret None
      <-> fst (CheckExistence ctx queryer (existsQuery query) params s) = Ret (false, None))
  /\ snd (CheckExistenceWithError ctx queryer query params s)
     = snd (CheckExistence ctx queryer (existsQuery query) params s).
Proof.
  pose proof (CheckExistence_error ctx queryer (existsQuery query) params s) as He.
  unfold CheckExistenceWithError, bind.
  destruct (CheckExistence _ _ _ _ s) as [[[b [e|]]|p] s']; simpl in *.
  - destruct (He b e eq_refl) as [msg ->].
    repeat split; intros [=].
  - destruct b; simpl; repeat split; intros [=]; reflexivity.
  - repeat split; intros [=].
Qed.

(** C6. For every [DeleteRecord] call whose statement is prepared and
    executed without error and whose affected-row count is [n]: it
    returns [ErrNotFound] when [n = 0] and nil when [n >= 1]. *)
Theorem DeleteRecord_by_count ctx queryer query params s stmt s1 res s2 n s3 c s4 :
  PrepareNamedContext queryer ctx query s = (Ret (inl stmt), s1) ->
  stmt_ExecContext stmt ctx params s1 = (Ret (inl res), s2) ->
  res_RowsAffected res s2 = (Ret (n, None), s3) ->
  stmt_Close stmt s3 = (Ret c, s4) ->
  (n = 0%Z ->
   DeleteRecord ctx queryer query params s = (Ret (Some (Sentinel ErrNotFound)), s4))
  /\ ((1 <= n)%Z -> DeleteRecord ctx queryer query params s = (Ret None, s4)).
Proof.
  intros Hp He Hn Hc.
  assert (DeleteRecord ctx queryer query params s
          = (Ret (if (n <? 1)%Z then Some (Sentinel ErrNotFound) else None), s4)) as ->.
  { unfold DeleteRecord, bind, defer_call. run.
    destruct (n <? 1)%Z; unfold ret; run; reflexivity. }
  split; intros Hn'.
  - subst n. reflexivity.
  - destruct (Z.ltb_spec n 1); [lia | reflexivity].
Qed.

(** C7. For every [InsertRecord] call whose query executes without error
    and yields the ids [ids]: it returns the first id and nil when [ids]
    is not empty, and the id 0 with an error that is [ErrInternal] when
    [ids] is empty. *)
Theorem InsertRecord_first_id ctx queryer query params s (ids : list Z) s1 :
  QueryMultiple ctx queryer query params (t_slice t_int64) [] s = (Ret (ids, None), s1) ->
  match ids with
  | id0 :: _ => InsertRecord ctx queryer query params s = (Ret (id0, None), s1)
  | [] =>
      exists e, InsertRecord ctx queryer query params s = (Ret (0%Z, Some e), s1)
                /\ errors_Is e ErrInternal = true
  end.
Proof.
  intros Hq. rewrite (InsertRecord_ok _ _ _ _ _ _ _ Hq).
  destruct ids; [|reflexivity].
  eexists. split; reflexivity.
Qed.

(** C9. There are inputs on which [AddRecord] indexes an empty slice:
    whenever its query executes without error and yields no row,
    [AddRecord] panics with "index out of range [0] with length 0", while
    [InsertRecord] on a query that yields no row returns an error. *)
Theorem AddRecord_indexes_empty_result ctx queryer query params s s1 s1' :
  QueryMultiple ctx queryer query params (t_slice t_OnlyId) [] s = (Ret ([], None), s1) ->
  QueryMultiple ctx queryer query params (t_slice t_int64) [] s = (Ret ([], None), s1') ->
  AddRecord ctx queryer query params s = (Panic (IndexOutOfRange 0 0), s1)
  /\ exists e, InsertRecord ctx queryer query params s = (Ret (0%Z, Some e), s1').
Proof.
  intros Hq Hq'. split.
  - unfold AddRecord. erewrite bind_Ret by exact Hq. reflexivity.
  - rewrite (InsertRecord_ok _ _ _ _ _ _ _ Hq'). eexists. reflexivity.
Qed.

(** C10. On every input [UpdateRecordWithResultId] returns what
    [InsertRecord] returns, in the same state; when the query yields no
    row its error is [ErrInternal] and is not [ErrNotUpdated]. *)
Theorem UpdateRecordWithResultId_as_InsertRecord ctx queryer query params s :
  UpdateRecordWithResultId ctx queryer query params s
  = InsertRecord ctx queryer query params s
  /\ forall s1,
       QueryMultiple ctx queryer query params (t_slice t_int64) [] s
       = (Ret ([], None), s1) ->
       exists e,
         UpdateRecordWithResultId ctx queryer query params s = (Ret (0%Z, Some e), s1)
         /\ errors_Is e ErrInternal = true
         /\ errors_Is e ErrNotUpdated = false
         /\ e <> Sentinel ErrNotUpdated.
Proof.
  split; [reflexivity|]. intros s1 Hq.
  unfold UpdateRecordWithResultId. rewrite (InsertRecord_ok _ _ _ _ _ _ _ Hq).
  eexists. repeat split. discriminate.
Qed.

End Helpers.

(* ------------------------------------------------------------------ *)
(** ** Connecting with retries *)
(* ------------------------------------------------------------------ *)

Lemma ticks_app (l1 l2 : list event) : ticks (l1 ++ l2) = ticks l1 ++ ticks l2.
Proof. apply omap_app. Qed.

Section Connect.
Context `{Drv : Driver}.
Implicit Types (s : State) (dsn : string) (h : DB).

Lemma InitDB_loop_S n i dsn err s :
  InitDB_loop (S n) i dsn err s =
    match connectDB dsn s with
    | (Ret (h, Some e), s1) => InitDB_loop n (i + 1) dsn (Some e) (waited i e s1)
    | (Ret (h, None), s1) =>
        match h with
        | Some h => (Ret (Some h, None), configured h s1)
        | None => (Panic NilDereference, s1)
        end
    | (Panic p, s1) => (Panic p, s1)
    end.
Proof.
  simpl. unfold bind at 1.
  destruct (connectDB dsn s) as [[[[h|] [e|]]|p] s1]; reflexivity.
Qed.

Lemma connectDB_calls dsn s :
  exists l, calls (snd (connectDB dsn s)) = calls s ++ l /\ ticks l = [Attempt].
Proof.
  unfold connectDB, bind, defer_call, call_, call. cbv zeta.
  destruct (sqlx_Open "pgx" dsn (world s)) as [[[h|e]|p] w]; simpl.
  - destruct (DB_PingContext h (WithTimeout Background (5 * Second)) w)
      as [[[e|]|p] w']; simpl;
      rewrite <- !app_assoc; eexists; (split; reflexivity).
  - eexists; split; reflexivity.
  - eexists; split; reflexivity.
Qed.

(** A failure of [connectDB] wraps the failure of the library. *)
Lemma connectDB_failure dsn s (h : option DB) e s1 :
  connectDB dsn s = (Ret (h, Some e), s1) ->
  h = None /\ exists e0, library_failure dsn s e0 /\ Unwrap e = Some e0.
Proof.
  unfold library_failure, connectDB, bind, defer_call, call_, call. cbv zeta.
  destruct (sqlx_Open "pgx" dsn (world s)) as [[[h0|e0]|p] w]; simpl.
  - destruct (DB_PingContext h0 (WithTimeout Background (5 * Second)) w)
      as [[[e0|]|p] w'] eqn:Hp; simpl; intros [= <- <-] || intros [=].
    split; [reflexivity|]. exists e0. split; [|reflexivity].
    right. exists h0, w. rewrite Hp. split; reflexivity.
  - intros [= <- <- <-]. split; [reflexivity|]. exists e0.
    split; [left|]; reflexivity.
  - intros [=].
Qed.

Lemma fail_run_calls dsn k : forall i s last s' last',
  fail_run dsn k i s last = Some (s', last') ->
  exists l, calls s' = calls s ++ l /\ ticks l = rounds k.
Proof.
  induction k as [|k IH]; intros i s last s' last'; simpl.
  - intros [= <- <-]. exists []. rewrite app_nil_r. split; reflexivity.
  - destruct (connectDB_calls dsn s) as (l0 & Hl0 & Ht0).
    destruct (connectDB dsn s) as [[[h [e|]]|p] s1]; try discriminate.
    intros Hk. destruct (IH _ _ _ _ _ Hk) as (l & Hl & Ht).
    simpl in Hl0, Hl. rewrite Hl0, <- !app_assoc in Hl.
    eexists. split; [exact Hl|].
    rewrite !ticks_app, Ht0, Ht. reflexivity.
Qed.

(** The loop stops at the first attempt that succeeds. *)
Lemma InitDB_loop_success dsn k : forall n i s last s' last' h s'',
  fail_run dsn k i s last = Some (s', last') ->
  connectDB dsn s' = (Ret (Some h, None), s'') ->
  (k < n)%nat ->
  InitDB_loop n i dsn last s = (Ret (Some h, None), configured h s'').
Proof.
  induction k as [|k IH]; intros n i s last s' last' h s''; simpl.
  - intros [= <- <-] Hc Hn. destruct n as [|n]; [lia|].
    rewrite InitDB_loop_S, Hc. reflexivity.
  - intros Hk Hc Hn. destruct n as [|n]; [lia|].
    rewrite InitDB_loop_S.
    destruct (connectDB dsn s) as [[[h0 [e|]]|p] s1]; try discriminate.
    apply (IH n _ _ _ _ _ _ _ Hk Hc). lia.
Qed.

(** The loop gives up once every attempt of its budget has failed. *)
Lemma InitDB_loop_exhausted dsn n : forall i s last s' last',
  fail_run dsn n i s last = Some (s', last') ->
  InitDB_loop n i dsn last s = (Ret (None, Some (retries_exhausted last')), s').
Proof.
  induction n as [|n IH]; intros i s last s' last'.
  - simpl. intros [= <- <-]. reflexivity.
  - rewrite InitDB_loop_S. simpl.
    destruct (connectDB dsn s) as [[[h0 [e|]]|p] s1]; try discriminate.
    apply IH.
Qed.

Lemma fail_run_snoc dsn k : forall i s last s' last' (h : option DB) e s'',
  fail_run dsn k i s last = Some (s', last') ->
  connectDB dsn s' = (Ret (h, Some e), s'') ->
  fail_run dsn (S k) i s last = Some (waited (i + Z.of_nat k) e s'', Some e).
Proof.
  induction k as [|k IH]; intros i s last s' last' h e s''.
  - simpl. intros [= <- <-] ->. rewrite Z.add_0_r. reflexivity.
  - intros Hk Hc. change (fail_run dsn (S (S k)) i s last)
      with (match connectDB dsn s with
            | (Ret (_, Some e), s1) => fail_run dsn (S k) (i + 1) (waited i e s1) (Some e)
            | _ => None
            end).
    simpl in Hk.
    destruct (connectDB dsn s) as [[[h0 [e0|]]|p] s1]; try discriminate.
    rewrite (IH _ _ _ _ _ _ _ _ Hk Hc).
    replace (i + 1 + Z.of_nat k)%Z with (i + Z.of_nat (S k))%Z by lia.
    reflexivity.
Qed.

(** Whatever the libraries do, the loop makes at most [n] attempts and
    sleeps [RetryInterval] after each failed one. *)
Lemma InitDB_loop_ticks dsn n : forall i last s,
  exists l, calls (snd (InitDB_loop n i dsn last s)) = calls s ++ l
    /\ (ticks l = rounds n
        \/ exists k, (k < n)%nat /\ ticks l = rounds k ++ [Attempt]).
Proof.
  induction n as [|n IH]; intros i last s.
  - exists []. simpl. rewrite app_nil_r. split; [reflexivity | left; reflexivity].
  - rewrite InitDB_loop_S.
    destruct (connectDB_calls dsn s) as (l0 & Hl0 & Ht0).
    destruct (connectDB dsn s) as [[[h [e|]]|p] s1]; simpl in Hl0.
    + destruct (IH (i + 1)%Z (Some e) (waited i e s1)) as (l & Hl & Ht).
      simpl in Hl. rewrite Hl0, <- !app_assoc in Hl.
      eexists. split; [exact Hl|].
      rewrite !ticks_app, Ht0.
      destruct Ht as [Ht | (k & Hk & Ht)]; rewrite Ht.
      * left. reflexivity.
      * right. exists (S k). split; [lia | reflexivity].
    + destruct h as [h|]; simpl; rewrite ?Hl0, <- ?app_assoc.
      * eexists. split; [reflexivity|].
        rewrite ticks_app, Ht0.
        right. exists 0%nat. split; [lia | reflexivity].
      * exists l0. split; [reflexivity|].
        right. exists 0%nat. split; [lia | exact Ht0].
    + exists l0. split; [exact Hl0|].
      right. exists 0%nat. split; [lia | exact Ht0].
Qed.

Lemma configured_calls h s : exists l, calls (configured h s) = calls s ++ l /\ ticks l = [].
Proof.
  unfold configured. simpl. rewrite <- !app_assoc. eexists. split; reflexivity.
Qed.

(** C8. [InitDB] makes at most 50 attempts and sleeps 5 seconds after each
    failed one.  When the first 3 attempts fail and the 4th succeeds with
    the handle [h], it returns [h] and nil after configuring the pool of
    [h], having made exactly 4 attempts.  When the 50th attempt fails too,
    with the error [e], it returns an error that wraps [e]. *)
Theorem InitDB_retries dsn s :
  (MaxRetries = 50 /\ RetryInterval = 5 * 1000000000)%Z
  /\ (exists l, calls (snd (InitDB dsn s)) = calls s ++ l
        /\ (ticks l = rounds 50
            \/ exists k, (k < 50)%nat /\ ticks l = rounds k ++ [Attempt]))
  /\ (forall s3 e3 h s4,
        fail_run dsn 3 0 s None = Some (s3, e3) ->
        connectDB dsn s3 = (Ret (Some h, None), s4) ->
        InitDB dsn s = (Ret (Some h, None), configured h s4)
        /\ exists l, calls (configured h s4) = calls s ++ l
             /\ ticks l = rounds 3 ++ [Attempt])
  /\ (forall s49 e49 (h : option DB) e s50,
        fail_run dsn 49 0 s None = Some (s49, e49) ->
        connectDB dsn s49 = (Ret (h, Some e), s50) ->
        exists err e0,
          InitDB dsn s = (Ret (None, Some err), waited 49 e s50)
          /\ Unwrap err = Some e
          /\ Unwrap e = Some e0
          /\ library_failure dsn s49 e0).
Proof.
  split; [split; reflexivity|]. split; [|split].
  - apply (InitDB_loop_ticks dsn 50).
  - intros s3 e3 h s4 Hf Hc. split.
    + apply (InitDB_loop_success dsn 3 50 _ _ _ _ _ _ _ Hf Hc). lia.
    + destruct (fail_run_calls _ _ _ _ _ _ _ Hf) as (l & Hl & Ht).
      destruct (connectDB_calls dsn s3) as (l0 & Hl0 & Ht0).
      destruct (configured_calls h s4) as (l1 & Hl1 & Ht1).
      rewrite Hc in Hl0. simpl in Hl0.
      rewrite Hl1, Hl0, Hl, <- !app_assoc. eexists. split; [reflexivity|].
      rewrite !ticks_app, Ht, Ht0, Ht1, app_nil_r. reflexivity.
  - intros s49 e49 h e s50 Hf Hc.
    pose proof (fail_run_snoc _ _ _ _ _ _ _ _ _ _ Hf Hc) as H50.
    destruct (connectDB_failure _ _ _ _ _ Hc) as (_ & e0 & Hlib & He0).
    eexists. exists e0. split; [|split; [|split]].
    + apply (InitDB_loop_exhausted dsn 50 _ _ _ _ _ H50).
    + reflexivity.
    + exact He0.
    + exact Hlib.
Qed.

End Connect.

(* ------------------------------------------------------------------ *)
(** ** Runs against the simulated server *)
(* ------------------------------------------------------------------ *)

Section QuietRuns.
Import Scenario.
#[local] Existing Instance quiet_driver.

(** C1 on a run: a [Do] whose function returns nil commits, one whose
    function returns [ErrInvalidParams] rolls back and returns it. *)
Lemma Do_commits_or_rolls_back_witness :
  (fst (Do Background 1%positive fn_ok fresh_uow) = Ret None
   /\ calls (snd (Do Background 1%positive fn_ok fresh_uow))
      = [EvBeginTxx (DBHandle 0) Background; EvCommit (TxHandle 0)])
  /\ (fst (Do Background 1%positive fn_err fresh_uow) = Ret (Some (Sentinel ErrInvalidParams))
      /\ calls (snd (Do Background 1%positive fn_err fresh_uow))
         = [EvBeginTxx (DBHandle 0) Background; EvRollback (TxHandle 0)]).
Proof.
  split.
  - pose proof (Do_commits_or_rolls_back Background 1%positive fn_ok fresh_uow
                  {| db := DBHandle 0; tx := None |} (TxHandle 0) _ None _
                  eq_refl eq_refl eq_refl) as H.
    simpl in H. rewrite H. split; reflexivity.
  - pose proof (Do_commits_or_rolls_back Background 1%positive fn_err fresh_uow
                  {| db := DBHandle 0; tx := None |} (TxHandle 0) _
                  (Some (Sentinel ErrInvalidParams)) _
                  eq_refl eq_refl eq_refl) as H.
    simpl in H. rewrite H. split; reflexivity.
Defined.

(** C2 on a run: the function panics with "boom"; the transaction is
    rolled back and [Do] panics with "boom". *)
Lemma Do_rolls_back_then_repanics_witness :
  fst (Do Background 1%positive fn_panic fresh_uow) = Panic (PanicString "boom")
  /\ calls (snd (Do Background 1%positive fn_panic fresh_uow))
     = [EvBeginTxx (DBHandle 0) Background; EvRollback (TxHandle 0)]
  /\ Sim.txs (world (snd (Do Background 1%positive fn_panic fresh_uow))) = [Sim.RolledBack].
Proof.
  destruct (Do_rolls_back_then_repanics Background 1%positive fn_panic fresh_uow
              {| db := DBHandle 0; tx := None |} (TxHandle 0) _ (PanicString "boom") _ _ _
              eq_refl eq_refl eq_refl eq_refl) as [H _].
  rewrite H. repeat split.
Defined.

(** C3, at a failing input: a unit of work over the pool [DBHandle 0],
    one [Do] whose function returns nil, then [GetQueryer].  Before the
    [Do] it returns the pool and inside it the transaction; after the
    [Do], when the transaction is committed, it still returns that
    transaction and not the pool. *)
Theorem GetQueryer_after_Do_returns_finished_tx :
  let run :=
    uow <- NewUnitOfWork (DBHandle 0) ;;
    before <- GetQueryer uow ;;
    err <- Do Background uow fn_insert ;;
    after <- GetQueryer uow ;;
    ret (before, err, after) in
  fst (run (Sim.init Sim.quiet))
  = Ret (Queryer_DB (DBHandle 0), None, Queryer_Tx (TxHandle 0))
  /\ Sim.txs (world (snd (run (Sim.init Sim.quiet)))) = [Sim.Committed]
  /\ head (drop 1 (calls (snd (run (Sim.init Sim.quiet)))))
     = Some (EvPrepareNamed (Queryer_Tx (TxHandle 0)) Background
               "update t set n = 1 returning id")
  /\ Queryer_Tx (TxHandle 0) <> Queryer_DB (DBHandle 0).
Proof.
  cbv zeta. repeat split; try (vm_compute; reflexivity). discriminate.
Qed.

End QuietRuns.

Section NoRowsRuns.
Import Scenario.
#[local] Existing Instance no_rows_driver.

(** C4, at a failing input: the pool of a server whose single-row query
    finds no row, so that [GetContext] returns [sql.ErrNoRows].
    [CheckExistence] then returns false together with an error that is
    [ErrInternal], not with nil. *)
Theorem CheckExistence_no_rows_returns_Internal :
  fst ((r <- PrepareNamedContext pool Background exists_by_id ;;
        match r with
        | inl stmt => stmt_GetContext stmt Background t_bool false id_99
        | inr e => ret (false, Some e)
        end) (Sim.init no_rows))
  = Ret (false, Some (Sentinel sql_ErrNoRows))
  /\ fst (CheckExistence Background pool exists_by_id id_99 (Sim.init no_rows))
     = Ret (false, Some (wrapError "internal server error: data not found" ErrInternal))
  /\ fst (CheckExistence Background pool exists_by_id id_99 (Sim.init no_rows))
     <> Ret (false, None).
Proof.
  repeat split; try (vm_compute; reflexivity).
  vm_compute. discriminate.
Qed.

End NoRowsRuns.

Section TestDBRuns.
Import Scenario.
#[local] Existing Instance testdb_driver.

(** C5, as stated, fails: on [select false] the check with error returns
    [ErrAlreadyExists] (the template yields a row), while
    [CheckExistence] on the same template and parameters returns false. *)
Lemma CheckExistenceWithError_same_template_counterexample :
  ~ (fst (CheckExistenceWithError Background pool select_false ∅ (Sim.init testdb))
       = Ret (Some (Sentinel ErrAlreadyExists))
     <-> fst (CheckExistence Background pool select_false ∅ (Sim.init testdb))
         = Ret (true, None)).
Proof.
  intros [H _].
  assert (fst (CheckExistenceWithError Background pool select_false ∅ (Sim.init testdb))
          = Ret (Some (Sentinel ErrAlreadyExists))) as Hl by (vm_compute; reflexivity).
  apply H in Hl. vm_compute in Hl. discriminate Hl.
Qed.

(** C6 on two runs: no row with id 99, one row with id 2. *)
Lemma DeleteRecord_by_count_witness :
  fst (DeleteRecord Background pool delete_99 ∅ (Sim.init testdb))
    = Ret (Some (Sentinel ErrNotFound))
  /\ fst (DeleteRecord Background pool delete_2 ∅ (Sim.init testdb)) = Ret None.
Proof.
  split.
  - edestruct (DeleteRecord_by_count Background pool delete_99 ∅ (Sim.init testdb))
      as [H _]; [reflexivity .. |].
    rewrite (H eq_refl). reflexivity.
  - edestruct (DeleteRecord_by_count Background pool delete_2 ∅ (Sim.init testdb))
      as [_ H]; [reflexivity .. |].
    rewrite H; [reflexivity | vm_compute; discriminate].
Defined.

(** C7 on two runs: an insert that returns the id 5, and a statement
    that returns no id. *)
Lemma InsertRecord_first_id_witness :
  fst (InsertRecord Background pool insert_olga olga (Sim.init testdb)) = Ret (5%Z, None)
  /\ exists e,
       fst (InsertRecord Background pool delete_99 ∅ (Sim.init testdb)) = Ret (0%Z, Some e)
       /\ errors_Is e ErrInternal = true.
Proof.
  split.
  - rewrite (InsertRecord_first_id Background pool insert_olga olga (Sim.init testdb)
               [5%Z] _ eq_refl).
    reflexivity.
  - destruct (InsertRecord_first_id Background pool delete_99 ∅ (Sim.init testdb)
                [] _ eq_refl) as (e & H & He).
    exists e. rewrite H. split; [reflexivity | exact He].
Defined.

(** C9 on a run: a statement that succeeds and returns no row. *)
Lemma AddRecord_indexes_empty_result_witness :
  fst (AddRecord Background pool delete_99 ∅ (Sim.init testdb))
    = Panic (IndexOutOfRange 0 0)
  /\ exists e,
       fst (InsertRecord Background pool delete_99 ∅ (Sim.init testdb)) = Ret (0%Z, Some e).
Proof.
  destruct (AddRecord_indexes_empty_result Background pool delete_99 ∅ (Sim.init testdb)
              _ _ eq_refl eq_refl) as (H & e & He).
  split; [rewrite H; reflexivity | exists e; rewrite He; reflexivity].
Defined.

(** C10 on two runs: a statement that returns the id 5, and one that
    returns no id. *)
Lemma UpdateRecordWithResultId_as_InsertRecord_witness :
  UpdateRecordWithResultId Background pool insert_olga olga (Sim.init testdb)
    = InsertRecord Background pool insert_olga olga (Sim.init testdb)
  /\ exists e,
       fst (UpdateRecordWithResultId Background pool delete_99 ∅ (Sim.init testdb))
         = Ret (0%Z, Some e)
       /\ errors_Is e ErrInternal = true /\ errors_Is e ErrNotUpdated = false.
Proof.
  split.
  - exact (proj1 (UpdateRecordWithResultId_as_InsertRecord
                    Background pool insert_olga olga (Sim.init testdb))).
  - destruct (proj2 (UpdateRecordWithResultId_as_InsertRecord
                       Background pool delete_99 ∅ (Sim.init testdb)) _ eq_refl)
      as (e & H & Hi & Hn & _).
    exists e. rewrite H. repeat split; assumption.
Defined.

End TestDBRuns.

Section ConnectRuns.
Import Scenario.

(** C8 on two runs: a server that refuses the first three connections,
    and one that refuses them all. *)
Lemma InitDB_retries_witness :
  (fst (InitDB (Drv := flaky_driver) "postgres://db" (Sim.init flaky))
     = Ret (Some (DBHandle 3), None)
   /\ ticks (calls (snd (InitDB (Drv := flaky_driver) "postgres://db" (Sim.init flaky))))
      = [Attempt; Wait five_seconds; Attempt; Wait five_seconds;
         Attempt; Wait five_seconds; Attempt]
   /\ Sim.pool (world (snd (InitDB (Drv := flaky_driver) "postgres://db" (Sim.init flaky))))
      = Some (5, 5, 300000000000)%Z)
  /\ (exists err,
        fst (InitDB (Drv := down_driver) "postgres://db" (Sim.init down))
          = Ret (None, Some err)
        /\ (Unwrap err ≫= Unwrap) = Some refused
        /\ Sim.opened (world (snd (InitDB (Drv := down_driver) "postgres://db" (Sim.init down))))
           = 50%nat).
Proof.
  split.
  - destruct (InitDB_retries (Drv := flaky_driver) "postgres://db" (Sim.init flaky))
      as (_ & _ & H & _).
    destruct (H (before_attempt "postgres://db" 3 (Sim.init flaky))
                (last_failure "postgres://db" 3 (Sim.init flaky))
                (DBHandle 3)
                (snd (connectDB "postgres://db"
                        (before_attempt "postgres://db" 3 (Sim.init flaky)))))
      as [Hr (l & Hl & Ht)]; [vm_compute; reflexivity | vm_compute; reflexivity |].
    clear Hl Ht. rewrite Hr. split; [reflexivity | split]; vm_compute; reflexivity.
  - destruct (InitDB_retries (Drv := down_driver) "postgres://db" (Sim.init down))
      as (_ & _ & _ & H).
    destruct (H (before_attempt "postgres://db" 49 (Sim.init down))
                (last_failure "postgres://db" 49 (Sim.init down))
                None
                (Errorf_prefix_w "ошибка при проверке соединения: " refused)
                (snd (connectDB "postgres://db"
                        (before_attempt "postgres://db" 49 (Sim.init down)))))
      as (err & e0 & Hr & Hu & Hu0 & _); [vm_compute; reflexivity ..|].
    exists err. rewrite Hr, Hu. split; [reflexivity | split].
    + reflexivity.
    + vm_compute. reflexivity.
Defined.

End ConnectRuns.

(* ------------------------------------------------------------------ *)
(** ** More on the unit of work *)
(* ------------------------------------------------------------------ *)

Section MoreUnitOfWork.
Context `{Drv : Driver}.
Implicit Types (s : State) (u : PostgresUnitOfWork) (t : Tx) (uow : uowptr).

(** X1. When [BeginTxx] fails with [e], [Do] returns [e] after that one
    library call: [fn] is not run, nothing is committed or rolled back,
    and the unit of work is left as it was. *)
Theorem Do_begin_error ctx uow (fn : uowptr -> Go goerror) s u e w :
  uows s !! uow = Some u ->
  DB_BeginTxx (db u) ctx (world s) = (Ret (inr e), w) ->
  Do ctx uow fn s = (Ret (Some e), logged (EvBeginTxx (db u) ctx) w s)
  /\ uows (snd (Do ctx uow fn s)) = uows s.
Proof.
  intros Hu Hb.
  assert (Do ctx uow fn s = (Ret (Some e), logged (EvBeginTxx (db u) ctx) w s)) as ->.
  { unfold Do.
    rewrite (bind_Ret _ _ s u s) by (unfold load; rewrite Hu; reflexivity).
    rewrite (bind_Ret _ _ s (inr e) (logged (EvBeginTxx (db u) ctx) w s))
      by (rewrite call_eq, Hb; reflexivity).
    reflexivity. }
  split; reflexivity.
Qed.

(** X2. Inside [Do], [GetQueryer] gives the transaction that [Do] has
    begun: a function that asks the unit of work for its queryer and works
    with it behaves as if it had been handed that transaction. *)
Theorem Do_GetQueryer_is_transaction ctx uow (body : Queryer -> Go goerror) s u t w :
  uows s !! uow = Some u ->
  DB_BeginTxx (db u) ctx (world s) = (Ret (inl t), w) ->
  Do ctx uow (fun p => q <- GetQueryer p ;; body q) s
  = Do ctx uow (fun _ => body (Queryer_Tx t)) s.
Proof.
  intros Hu Hb. rewrite !(Do_begun _ _ _ _ _ _ _ Hu Hb).
  rewrite (bind_Ret _ _ _ _ _ (GetQueryer_inside_Do ctx uow s u t w)).
  reflexivity.
Qed.

(** X3. On a unit of work that [NewUnitOfWork] has just made over the
    pool [h], [GetQueryer] returns [h], and a [Do] whose [BeginTxx] fails
    does not change that. *)
Theorem NewUnitOfWork_GetQueryer_pool h ctx (fn : uowptr -> Go goerror) s e w :
  DB_BeginTxx h ctx (world s) = (Ret (inr e), w) ->
  (uow <- NewUnitOfWork h ;; GetQueryer uow) s
    = (Ret (Queryer_DB h), snd (NewUnitOfWork h s))
  /\ fst ((uow <- NewUnitOfWork h ;; Do ctx uow fn ;;; GetQueryer uow) s)
     = Ret (Queryer_DB h).
Proof.
  intros Hb. split; [apply GetQueryer_new|].
  unfold NewUnitOfWork at 1. unfold bind at 1. cbv zeta.
  set (p := fresh (dom (uows s))).
  set (s1 := stored p {| db := h; tx := None |} s).
  assert (uows s1 !! p = Some {| db := h; tx := None |}) as Hu
    by (unfold s1; simpl; apply lookup_insert_eq).
  assert (Do ctx p fn s1 = (Ret (Some e), logged (EvBeginTxx h ctx) w s1)) as HD.
  { unfold Do.
    rewrite (bind_Ret _ _ s1 _ s1) by (unfold load; rewrite Hu; reflexivity).
    rewrite (bind_Ret _ _ s1 (inr e) (logged (EvBeginTxx h ctx) w s1))
      by (rewrite call_eq; simpl; rewrite Hb; reflexivity).
    reflexivity. }
  rewrite (bind_Ret _ _ _ _ _ HD).
  unfold GetQueryer, bind, load. simpl. fold p. rewrite lookup_insert_eq. reflexivity.
Qed.

End MoreUnitOfWork.

(* ------------------------------------------------------------------ *)
(** ** More on the query helpers *)
(* ------------------------------------------------------------------ *)

Section MoreHelpers.
Context `{Drv : Driver}.
Implicit Types (s : State) (queryer : Queryer) (query : string) (params : Params).

Lemma call_shape {A} (ev : event) (f : World -> outcome A * World) s :
  exists r w, call ev f s = (r, logged ev w s).
Proof. rewrite call_eq. eauto. Qed.

(** Name the outcome of the next library call of the goal. *)
Ltac lib_call :=
  match goal with
  | |- context [call ?ev ?f ?s] =>
      let r := fresh "r" in
      let w := fresh "w" in
      let E := fresh "E" in
      destruct (call_shape ev f s) as (r & w & E); rewrite ?E in *
  end.

(** Rewrite with the outcomes of the calls assumed in the context. *)
Ltac run :=
  repeat first
    [ progress cbn beta iota zeta
    | match goal with
      | H : ?m ?s = (_, _) |- context [?m ?s] => rewrite H
      end ].

Ltac unfold_calls :=
  unfold PrepareNamedContext, stmt_SelectContext, stmt_GetContext, stmt_ExecContext,
    stmt_Close, res_RowsAffected in *.

(** X4. [QueryMultiple] and [QuerySingle] make one library call when the
    statement cannot be prepared, and otherwise exactly three: prepare,
    read, close.  The statement is closed whatever the read does, also
    when it panics. *)
Theorem query_calls ctx queryer query params t (dest : dest_val t) s :
  match fst (PrepareNamedContext queryer ctx query s) with
  | Ret (inl stmt) =>
      calls (snd (QueryMultiple ctx queryer query params t dest s))
        = calls s ++ [EvPrepareNamed queryer ctx query; EvSelect stmt ctx params;
                      EvStmtClose stmt]
      /\ calls (snd (QuerySingle ctx queryer query params t dest s))
         = calls s ++ [EvPrepareNamed queryer ctx query; EvGet stmt ctx params;
                       EvStmtClose stmt]
  | _ =>
      calls (snd (QueryMultiple ctx queryer query params t dest s))
        = calls s ++ [EvPrepareNamed queryer ctx query]
      /\ calls (snd (QuerySingle ctx queryer query params t dest s))
         = calls s ++ [EvPrepareNamed queryer ctx query]
  end.
Proof.
  unfold QueryMultiple, QuerySingle, bind, defer_call. unfold_calls.
  lib_call. destruct r as [[stmt|e]|p]; simpl; [|split; reflexivity..].
  split.
  - lib_call. destruct r as [[d [e|]]|p]; simpl;
      try destruct (errors_Is e sql_ErrNoRows); unfold ret;
      lib_call; destruct r; simpl; rewrite <- !app_assoc; reflexivity.
  - lib_call. destruct r as [[d [e|]]|p]; simpl;
      try destruct (errors_Is e sql_ErrNoRows); unfold ret;
      lib_call; destruct r; simpl; rewrite <- !app_assoc; reflexivity.
Qed.

(** Run a helper through every outcome of its library calls. *)
Ltac any_call :=
  match goal with
  | |- context [call ?ev ?f ?s] =>
      let r := fresh "r" in
      let w := fresh "w" in
      let E := fresh "E" in
      destruct (call_shape ev f s) as (r & w & E); rewrite ?E in *; clear E
  | H : context [call ?ev ?f ?s] |- _ =>
      let r := fresh "r" in
      let w := fresh "w" in
      let E := fresh "E" in
      destruct (call_shape ev f s) as (r & w & E); rewrite ?E in *; clear E
  end.

Ltac step :=
  first
    [ any_call
    | match goal with
      | r : outcome _ |- _ => destruct r
      | x : (_ + _)%type |- _ => destruct x
      | x : (_ * _)%type |- _ => destruct x
      | x : goerror |- _ => destruct x
      | H : context [if ?b then _ else _] |- _ => destruct b eqn:?
      | |- context [if ?b then _ else _] => destruct b eqn:?
      end
    | progress (simpl in *; unfold ret in * )
    | progress simplify_eq ].

(** X5. [UpdateRecord], [DeleteRecord] and [ExecuteNonQuery] make the
    same library calls: prepare alone when preparing fails; otherwise
    prepare, execute, the count of affected rows when executing gave a
    result, and close.  The statement is closed in every case. *)
Theorem exec_helpers_calls ctx queryer query params s :
  let stmt := prepared (fst (PrepareNamedContext queryer ctx query s)) in
  exists l,
    exec_calls queryer ctx query params stmt l
    /\ calls (snd (UpdateRecord ctx queryer query params s)) = calls s ++ l
    /\ calls (snd (DeleteRecord ctx queryer query params s)) = calls s ++ l
    /\ calls (snd (ExecuteNonQuery ctx queryer query params s)) = calls s ++ l.
Proof.
  unfold UpdateRecord, DeleteRecord, ExecuteNonQuery, exec_calls, prepared,
    bind, defer_call.
  unfold_calls. cbv zeta.
  lib_call. destruct r as [[stmt|e]|p]; simpl;
    [| eexists; repeat split; reflexivity ..].
  lib_call. destruct r as [[res|e]|p]; simpl.
  - lib_call. destruct r as [[n [e|]]|p]; simpl;
      try destruct (n <? 1)%Z; unfold ret;
      lib_call; destruct r; simpl; rewrite <- !app_assoc;
      (eexists; split; [right; eexists; reflexivity | repeat split; reflexivity]).
  - unfold ret. lib_call. destruct r; simpl; rewrite <- !app_assoc;
      (eexists; split; [left; reflexivity | repeat split; reflexivity]).
  - lib_call. destruct r; simpl; rewrite <- !app_assoc;
      (eexists; split; [left; reflexivity | repeat split; reflexivity]).
Qed.

(** X6. An error that [QueryMultiple] returns is the prepare failure
    behind the prefix of [QueryMultiple], or [ErrNotFound], or an error
    around [ErrInternal] that carries the driver error as text only.
    Once the statement is prepared it is never [sql.ErrNoRows]. *)
Theorem QueryMultiple_error_kinds ctx queryer query params t (dest d : dest_val t) s e :
  fst (QueryMultiple ctx queryer query params t dest s) = Ret (d, Some e) ->
  match fst (PrepareNamedContext queryer ctx query s) with
  | Ret (inr e0) => e = Errorf_prefix_w "ошибка подготовки запроса: " e0 /\ d = dest
  | _ =>
      (e = Sentinel ErrNotFound
       \/ exists e1, errors_Is e1 sql_ErrNoRows = false
                     /\ e = Errorf_w_suffix ErrInternal (": " ++ Error e1))
      /\ errors_Is e sql_ErrNoRows = false
  end.
Proof.
  unfold QueryMultiple, bind, defer_call. unfold_calls.
  intros H. repeat step; eauto.
Qed.

(** X7. The same for [QuerySingle]: its error is the prepare failure
    behind a prefix, or [ErrNotFound], or an error around [ErrInternal];
    once the statement is prepared it is never [sql.ErrNoRows]. *)
Theorem QuerySingle_error_kinds ctx queryer query params t (dest d : dest_val t) s e :
  fst (QuerySingle ctx queryer query params t dest s) = Ret (d, Some e) ->
  match fst (PrepareNamedContext queryer ctx query s) with
  | Ret (inr e0) => e = Errorf_prefix_w "ошибка подготовки запроса: " e0 /\ d = dest
  | _ =>
      (e = Sentinel ErrNotFound
       \/ exists e1, errors_Is e1 sql_ErrNoRows = false
                     /\ e = Errorf_w_suffix ErrInternal (": " ++ Error e1))
      /\ errors_Is e sql_ErrNoRows = false
  end.
Proof.
  unfold QuerySingle, bind, defer_call. unfold_calls.
  intros H. repeat step; eauto.
Qed.

(** X8. [InsertRecord] makes no library call of its own and does not
    panic when its query returns: it passes an error of the query on
    unchanged, with the id 0, and a nil error comes with the first id the
    query has read. *)
Theorem InsertRecord_returns ctx queryer query params s (ids : list Z) err s1 :
  QueryMultiple ctx queryer query params (t_slice t_int64) [] s = (Ret (ids, err), s1) ->
  exists id err',
    InsertRecord ctx queryer query params s = (Ret (id, err'), s1)
    /\ (forall e, err = Some e -> id = 0%Z /\ err' = Some e)
    /\ (err' <> None -> id = 0%Z)
    /\ (err' = None -> head ids = Some id).
Proof.
  intros Hq. unfold InsertRecord. rewrite (bind_Ret _ _ _ _ _ Hq).
  destruct err as [e|]; [|destruct ids as [|id0 ids]]; simpl;
    eexists _, _; (split; [reflexivity|]); repeat split;
    congruence.
Qed.

(** X9. What [AddRecord] makes of its query: the id of the first row
    read; an error of the query behind the prefix of [AddRecord], which
    [errors.Is] still recognises; and a panic when the query read no
    row. *)
Theorem AddRecord_result ctx queryer query params s (res : list OnlyId) err s1 :
  QueryMultiple ctx queryer query params (t_slice t_OnlyId) [] s = (Ret (res, err), s1) ->
  match err, res with
  | Some e, _ =>
      exists e',
        AddRecord ctx queryer query params s = (Ret (0%Z, Some e'), s1)
        /\ Unwrap e' = Some e
        /\ Error e' = ("ошибка добавления: " ++ Error e)%string
        /\ forall target, errors_Is e' target = errors_Is e target
  | None, r0 :: _ => AddRecord ctx queryer query params s = (Ret (Id r0, None), s1)
  | None, [] => AddRecord ctx queryer query params s = (Panic (IndexOutOfRange 0 0), s1)
  end.
Proof.
  intros Hq. unfold AddRecord. rewrite (bind_Ret _ _ _ _ _ Hq).
  destruct err as [e|]; [|destruct res as [|r0 res]]; simpl; try reflexivity.
  eexists. repeat split.
Qed.

(** X10. [UpdateRecordWithResultListId] returns a nil error exactly
    with a non-empty list, the one its query has read; when the query
    read no row the error is [ErrNotUpdated], and an error of the query is
    passed on unchanged; with an error the list is nil. *)
Theorem UpdateRecordWithResultListId_result ctx queryer query params s
    (ids0 : list OnlyId) err0 s1 :
  QueryMultiple ctx queryer query params (t_slice t_OnlyId) [] s = (Ret (ids0, err0), s1) ->
  exists ids err,
    UpdateRecordWithResultListId ctx queryer query params s = (Ret (ids, err), s1)
    /\ (err = None <-> ids <> [])
    /\ match err0, ids0 with
       | Some e, _ => ids = [] /\ err = Some e
       | None, [] => ids = [] /\ err = Some (Sentinel ErrNotUpdated)
       | None, _ => ids = ids0 /\ err = None
       end.
Proof.
  intros Hq. unfold UpdateRecordWithResultListId. rewrite (bind_Ret _ _ _ _ _ Hq).
  destruct err0 as [e|]; [|destruct ids0 as [|r0 ids0]]; simpl;
    eexists _, _; (split; [reflexivity|]); repeat split; congruence.
Qed.

(** X11. For every [UpdateRecord] call whose statement is prepared and
    executed without error and affects [n] rows: it returns nil when
    [n >= 1]; when [n < 1] it returns an error around [ErrInternal], which
    is neither [ErrNotUpdated] nor [ErrNotFound]. *)
Theorem UpdateRecord_by_count ctx queryer query params s stmt s1 res s2 n s3 c s4 :
  PrepareNamedContext queryer ctx query s = (Ret (inl stmt), s1) ->
  stmt_ExecContext stmt ctx params s1 = (Ret (inl res), s2) ->
  res_RowsAffected res s2 = (Ret (n, None), s3) ->
  stmt_Close stmt s3 = (Ret c, s4) ->
  ((1 <= n)%Z -> UpdateRecord ctx queryer query params s = (Ret None, s4))
  /\ ((n < 1)%Z ->
      exists e,
        UpdateRecord ctx queryer query params s = (Ret (Some e), s4)
        /\ Unwrap e = Some (Sentinel ErrInternal)
        /\ Error e = "internal server error: запись не обновлена"
        /\ errors_Is e ErrNotUpdated = false
        /\ errors_Is e ErrNotFound = false).
Proof.
  intros Hp He Hn Hc.
  assert (UpdateRecord ctx queryer query params s
          = (Ret (if (n <? 1)%Z
                  then Some (Errorf_w_suffix ErrInternal ": запись не обновлена")
                  else None), s4)) as ->.
  { unfold UpdateRecord, bind, defer_call. run.
    destruct (n <? 1)%Z; unfold ret; run; reflexivity. }
  split; intros Hn'; destruct (Z.ltb_spec n 1); try lia.
  - reflexivity.
  - eexists. repeat split.
Qed.

(** X12. [DeleteRecord] and [ExecuteNonQuery] do the same on every
    input: the same library calls and final state, a nil result together,
    the same panic, and errors that [errors.Is] cannot tell apart (for no
    affected row, [ErrNotFound] itself and an error around it). *)
Theorem DeleteRecord_as_ExecuteNonQuery ctx queryer query params s :
  same_outcome (fst (DeleteRecord ctx queryer query params s))
               (fst (ExecuteNonQuery ctx queryer query params s))
  /\ snd (DeleteRecord ctx queryer query params s)
     = snd (ExecuteNonQuery ctx queryer query params s).
Proof.
  unfold DeleteRecord, ExecuteNonQuery, bind, defer_call. unfold_calls.
  repeat step; split; try reflexivity; simpl; intros; reflexivity.
Qed.

(** X13. An error that [DeleteRecord] returns is the prepare failure
    behind a prefix, or [ErrNotFound], or an error around [ErrInternal]
    that carries the driver error as text only. *)
Theorem DeleteRecord_error_kinds ctx queryer query params s e :
  fst (DeleteRecord ctx queryer query params s) = Ret (Some e) ->
  match fst (PrepareNamedContext queryer ctx query s) with
  | Ret (inr e0) => e = Errorf_prefix_w "ошибка подготовки запроса: " e0
  | _ =>
      e = Sentinel ErrNotFound
      \/ exists e1, e = Errorf_w_suffix ErrInternal (": " ++ Error e1)
  end.
Proof.
  unfold DeleteRecord, bind, defer_call. unfold_calls.
  intros H. repeat step; eauto.
Qed.

(** X14. [CheckExistence] answers true only when the statement was
    prepared and [GetContext] read true without error; with true the
    error is nil. *)
Theorem CheckExistence_true_only_if_read ctx queryer query params s err :
  fst (CheckExistence ctx queryer query params s) = Ret (true, err) ->
  err = None
  /\ exists stmt s1,
       PrepareNamedContext queryer ctx query s = (Ret (inl stmt), s1)
       /\ fst (stmt_GetContext stmt ctx t_bool false params s1) = Ret (true, None).
Proof.
  unfold CheckExistence, QuerySingle, bind, defer_call.
  intros H.
  destruct (PrepareNamedContext queryer ctx query s) as [[[stmt|e]|p] s1] eqn:Hp;
    simpl in H; try (repeat step; fail).
  destruct (stmt_GetContext stmt ctx t_bool false params s1) as [[[b [e|]]|p] s2] eqn:Hg;
    simpl in H; unfold_calls; try (repeat step; fail).
  split; [repeat step; reflexivity|].
  exists stmt, s1. split; [reflexivity|].
  repeat step; reflexivity.
Qed.

(** X15. When the statement is prepared, [GetContext] reads the flag [b]
    without error and the statement is closed, [CheckExistence] returns
    [b] and nil. *)
Theorem CheckExistence_reads_flag ctx queryer query params s stmt s1 b s2 c s3 :
  PrepareNamedContext queryer ctx query s = (Ret (inl stmt), s1) ->
  stmt_GetContext stmt ctx t_bool false params s1 = (Ret (b, None), s2) ->
  stmt_Close stmt s2 = (Ret c, s3) ->
  CheckExistence ctx queryer query params s = (Ret (b, None), s3).
Proof.
  intros Hp Hg Hc. unfold CheckExistence, QuerySingle, bind, defer_call. run.
  unfold ret. run. reflexivity.
Qed.

(** X16. The no-rows branch of [CheckExistence] is taken for a failure
    to prepare: when [PrepareNamedContext] fails with an error that is
    [sql.ErrNoRows], [CheckExistence] returns false and nil. *)
Theorem CheckExistence_prepare_no_rows ctx queryer query params s e s1 :
  PrepareNamedContext queryer ctx query s = (Ret (inr e), s1) ->
  errors_Is e sql_ErrNoRows = true ->
  CheckExistence ctx queryer query params s = (Ret (false, None), s1).
Proof.
  intros Hp He. unfold CheckExistence, QuerySingle, bind. run.
  unfold ret. simpl. rewrite He. reflexivity.
Qed.

(** X17. [CheckExistenceWithError] prepares the template inside
    [SELECT EXISTS(...) AS ex], and an error it returns is
    [ErrAlreadyExists] or an error around [ErrInternal]. *)
Theorem CheckExistenceWithError_kinds ctx queryer query params s :
  (exists l,
     calls (snd (CheckExistenceWithError ctx queryer query params s))
     = calls s ++ EvPrepareNamed queryer ctx ("SELECT EXISTS(" ++ query ++ ") AS ex")%string :: l)
  /\ forall e,
       fst (CheckExistenceWithError ctx queryer query params s) = Ret (Some e) ->
       e = Sentinel ErrAlreadyExists \/ Unwrap e = Some (Sentinel ErrInternal).
Proof.
  split.
  - unfold CheckExistenceWithError, CheckExistence, QuerySingle, existsQuery,
      bind, defer_call.
    unfold_calls.
    repeat step; rewrite <- ?app_assoc; eexists; reflexivity.
  - intros e.
    pose proof (CheckExistence_error ctx queryer (existsQuery query) params s) as He.
    unfold CheckExistenceWithError, bind.
    destruct (CheckExistence _ _ _ _ s) as [[[b [e'|]]|p] s']; simpl in *.
    + intros [= <-]. destruct (He b e' eq_refl) as [msg ->]. right. reflexivity.
    + destruct b; simpl; intros [= <-]. left. reflexivity.
    + intros [=].
Qed.

End MoreHelpers.

(* ------------------------------------------------------------------ *)
(** ** More on connecting *)
(* ------------------------------------------------------------------ *)

Section MoreConnect.
Context `{Drv : Driver}.
Implicit Types (s : State) (dsn : string).

Lemma connectDB_trace dsn s :
  exists l,
    calls (snd (connectDB dsn s)) = calls s ++ l
    /\ (l = [EvOpen "pgx" dsn]
        \/ exists h,
             l = [EvOpen "pgx" dsn;
                  EvPingContext h (WithTimeout Background (5 * Second));
                  EvCancel (WithTimeout Background (5 * Second))]).
Proof.
  unfold connectDB, bind, defer_call, call_, call. cbv zeta.
  destruct (sqlx_Open "pgx" dsn (world s)) as [[[h|e]|p] w]; simpl.
  - destruct (DB_PingContext h (WithTimeout Background (5 * Second)) w)
      as [[[e|]|p] w']; simpl;
      rewrite <- !app_assoc; eexists; (split; [reflexivity | right; eexists; reflexivity]).
  - eexists; split; [reflexivity | left; reflexivity].
  - eexists; split; [reflexivity | left; reflexivity].
Qed.


Lemma connectDB_shape dsn s (h : option DB) (err : goerror) :
  fst (connectDB dsn s) = Ret (h, err) ->
  (exists d, h = Some d /\ err = None)
  \/ (h = None
      /\ exists e e0, err = Some e /\ Unwrap e = Some e0 /\ library_failure dsn s e0).
Proof.
  destruct (connectDB dsn s) as [r s1] eqn:Hc. simpl. intros ->.
  destruct err as [e|].
  - right. destruct (connectDB_failure _ _ _ _ _ Hc) as (-> & e0 & Hl & Hu).
    split; [reflexivity|]. exists e, e0. auto.
  - left. revert Hc.
    unfold connectDB, bind, defer_call, call_, call. cbv zeta.
    destruct (sqlx_Open "pgx" dsn (world s)) as [[[d|e]|p] w]; simpl; try discriminate.
    destruct (DB_PingContext d (WithTimeout Background (5 * Second)) w)
      as [[[e|]|p] w']; simpl; try discriminate.
    intros [= <- <-]. eauto.
Qed.

(** X19. When [connectDB] returns, it returns either a handle and nil,
    or no handle and an error that wraps what [sqlx.Open] or the ping
    reported; never both and never neither. *)
Theorem connectDB_handle_or_error dsn s (h : option DB) (err : goerror) :
  fst (connectDB dsn s) = Ret (h, err) ->
  (exists d, h = Some d /\ err = None)
  \/ (h = None
      /\ exists e e0, err = Some e /\ Unwrap e = Some e0 /\ library_failure dsn s e0).
Proof. apply connectDB_shape. Qed.

Lemma connectDB_returns dsn s :
  (forall name d w, exists r w', sqlx_Open name d w = (Ret r, w')) ->
  (forall h c w, exists r w', DB_PingContext h c w = (Ret r, w')) ->
  exists r s1, connectDB dsn s = (Ret r, s1).
Proof.
  intros Ho Hp. unfold connectDB, bind, defer_call, call_, call. cbv zeta.
  destruct (Ho "pgx" dsn (world s)) as (r & w & ->). destruct r as [h|e]; simpl.
  - destruct (Hp h (WithTimeout Background (5 * Second)) w) as (r & w' & ->).
    destruct r; simpl; eauto.
  - eauto.
Qed.

Lemma InitDB_loop_returns dsn n : forall i last s,
  (forall name d w, exists r w', sqlx_Open name d w = (Ret r, w')) ->
  (forall h c w, exists r w', DB_PingContext h c w = (Ret r, w')) ->
  exists r s',
    InitDB_loop n i dsn last s = (Ret r, s')
    /\ ((exists h, r = (Some h, None)) \/ (exists e, r = (None, Some e))).
Proof.
  induction n as [|n IH]; intros i last s Ho Hp.
  - simpl. unfold ret. eauto 6.
  - rewrite InitDB_loop_S.
    destruct (connectDB_returns dsn s Ho Hp) as ([h err] & s1 & Hc).
    pose proof (connectDB_shape dsn s h err) as Hs.
    rewrite Hc in *. simpl in Hs.
    destruct (Hs eq_refl) as [(d & -> & ->) | (-> & e & e0 & -> & _)].
    + eauto 6.
    + apply IH; assumption.
Qed.

Lemma connectDB_no_close dsn s :
  exists l, calls (snd (connectDB dsn s)) = calls s ++ l
            /\ Forall (fun ev => is_close ev = false) l.
Proof.
  destruct (connectDB_trace dsn s) as (l & Hl & [-> | (h & ->)]);
    exists l || eexists; (split; [exact Hl|]); repeat constructor.
Qed.

Lemma InitDB_loop_no_close dsn n : forall i last s,
  exists l, calls (snd (InitDB_loop n i dsn last s)) = calls s ++ l
            /\ Forall (fun ev => is_close ev = false) l.
Proof.
  induction n as [|n IH]; intros i last s.
  - exists []. simpl. rewrite app_nil_r. split; constructor.
  - rewrite InitDB_loop_S.
    destruct (connectDB_no_close dsn s) as (l0 & Hl0 & Hf0).
    destruct (connectDB dsn s) as [[[h [e|]]|p] s1]; simpl in Hl0.
    + destruct (IH (i + 1)%Z (Some e) (waited i e s1)) as (l & Hl & Hf).
      simpl in Hl. rewrite Hl0, <- !app_assoc in Hl.
      eexists. split; [exact Hl|].
      apply Forall_app. split; [exact Hf0|]. repeat constructor. exact Hf.
    + destruct h as [h|]; simpl; rewrite ?Hl0, <- ?app_assoc.
      * eexists. split; [reflexivity|].
        apply Forall_app. split; [exact Hf0|]. repeat constructor.
      * exists l0. split; [reflexivity | exact Hf0].
    + exists l0. split; [exact Hl0 | exact Hf0].
Qed.

Lemma fail_run_last dsn k : forall i s e s' last,
  fail_run dsn k i s (Some e) = Some (s', last) -> exists e', last = Some e'.
Proof.
  induction k as [|k IH]; intros i s e s' last; simpl.
  - intros [= <- <-]. eauto.
  - destruct (connectDB dsn s) as [[[h [e'|]]|p] s1]; try discriminate.
    apply IH.
Qed.

Lemma total_wait_rounds k : total_wait (rounds k) = (Z.of_nat k * RetryInterval)%Z.
Proof. induction k as [|k IH]; [reflexivity|]. cbn [rounds total_wait]. rewrite IH. lia. Qed.

Lemma total_wait_rounds_attempt k :
  total_wait (rounds k ++ [Attempt]) = (Z.of_nat k * RetryInterval)%Z.
Proof.
  induction k as [|k IH]; [reflexivity|]. cbn [rounds total_wait app]. rewrite IH. lia.
Qed.

(** X20. When neither [sqlx.Open] nor the ping panics, [InitDB] returns,
    and what it returns is a handle with nil or no handle with an error. *)
Theorem InitDB_returns dsn s :
  (forall name d w, exists r w', sqlx_Open name d w = (Ret r, w')) ->
  (forall h c w, exists r w', DB_PingContext h c w = (Ret r, w')) ->
  exists r s',
    InitDB dsn s = (Ret r, s')
    /\ ((exists h, r = (Some h, None)) \/ (exists e, r = (None, Some e))).
Proof. apply InitDB_loop_returns. Qed.

(** X21. [InitDB] never closes a handle: each attempt opens a new one,
    and those whose ping failed are left open. *)
Theorem InitDB_never_closes dsn s :
  exists l, calls (snd (InitDB dsn s)) = calls s ++ l
            /\ Forall (fun ev => is_close ev = false) l.
Proof. apply InitDB_loop_no_close. Qed.

(** X22. [InitDB] succeeds at the first attempt that succeeds, as long
    as it is one of the 50: after [k < 50] failed attempts and a
    successful one it returns that handle, configured, having made
    [k + 1] attempts and slept [k] times 5 seconds. *)
Theorem InitDB_first_success dsn (k : nat) s s' last h s'' :
  (k < 50)%nat ->
  fail_run dsn k 0 s None = Some (s', last) ->
  connectDB dsn s' = (Ret (Some h, None), s'') ->
  InitDB dsn s = (Ret (Some h, None), configured h s'')
  /\ exists l, calls (configured h s'') = calls s ++ l
       /\ ticks l = rounds k ++ [Attempt]
       /\ total_wait (ticks l) = (Z.of_nat k * 5000000000)%Z.
Proof.
  intros Hk Hf Hc. split.
  - apply (InitDB_loop_success dsn k 50 _ _ _ _ _ _ _ Hf Hc). lia.
  - destruct (fail_run_calls _ _ _ _ _ _ _ Hf) as (l & Hl & Ht).
    destruct (connectDB_calls dsn s') as (l0 & Hl0 & Ht0).
    destruct (configured_calls h s'') as (l1 & Hl1 & Ht1).
    rewrite Hc in Hl0. simpl in Hl0.
    rewrite Hl1, Hl0, Hl, <- !app_assoc. eexists. split; [reflexivity|].
    rewrite !ticks_app, Ht, Ht0, Ht1, app_nil_r.
    split; [reflexivity | apply total_wait_rounds_attempt].
Qed.

(** X23. When all 50 attempts fail, [InitDB] gives up without a 51st:
    it has slept after every failure, the last included, 250 seconds in
    all, and the text of its error is the fixed prefix followed by the
    text of the last failure. *)
Theorem InitDB_exhausted dsn s s' last :
  fail_run dsn 50 0 s None = Some (s', last) ->
  exists e,
    last = Some e
    /\ InitDB dsn s = (Ret (None, Some (retries_exhausted (Some e))), s')
    /\ Error (retries_exhausted (Some e))
       = ("не удалось подключиться к базе данных после 50 попыток: " ++ Error e)%string
    /\ exists l, calls s' = calls s ++ l
         /\ ticks l = rounds 50
         /\ total_wait (ticks l) = 250000000000%Z.
Proof.
  intros Hf.
  assert (exists e, last = Some e) as [e ->].
  { revert Hf. change (fail_run dsn 50 0 s None)
      with (match connectDB dsn s with
            | (Ret (_, Some e), s1) => fail_run dsn 49 (0 + 1) (waited 0 e s1) (Some e)
            | _ => None
            end).
    destruct (connectDB dsn s) as [[[h [e|]]|p] s1]; try discriminate.
    apply fail_run_last. }
  exists e. split; [reflexivity|]. split; [|split].
  - apply (InitDB_loop_exhausted dsn 50 _ _ _ _ _ Hf).
  - reflexivity.
  - destruct (fail_run_calls _ _ _ _ _ _ _ Hf) as (l & Hl & Ht).
    exists l. split; [exact Hl|]. split; [exact Ht|].
    rewrite Ht. apply total_wait_rounds.
Qed.

End MoreConnect.

Section Endings.
Context `{Drv : Driver}.
Implicit Types (s : State) (u : PostgresUnitOfWork) (t : Tx) (uow : uowptr).

(** X24. [CloseDB] ends as [db.Close()] ends: it returns the error of
    [Close] as it is, not wrapped, and reports it to the log only when
    there is one. *)
Theorem CloseDB_as_Close (h : DB) s :
  fst (CloseDB h s) = fst (DB_Close h (world s))
  /\ world (snd (CloseDB h s)) = snd (DB_Close h (world s))
  /\ calls (snd (CloseDB h s))
     = calls s ++ EvClose h ::
         match fst (DB_Close h (world s)) with
         | Ret (Some e) =>
             [EvSlogError "Ошибка при закрытии соединения с базой данных" None e]
         | _ => []
         end.
Proof.
  unfold CloseDB, bind, call_. rewrite call_eq.
  destruct (DB_Close h (world s)) as [[[e|]|p] w]; simpl;
    rewrite <- ?app_assoc; repeat split.
Qed.

(** X25. Once [Do] has begun a transaction it ends it, whatever [fn]
    does: its last library call is [Commit] when [fn] returned nil and
    [Rollback] when [fn] returned an error or panicked, and it makes no
    other call after [fn]. *)
Theorem Do_ends_transaction ctx uow (fn : uowptr -> Go goerror) s u t w r s2 :
  uows s !! uow = Some u ->
  DB_BeginTxx (db u) ctx (world s) = (Ret (inl t), w) ->
  fn uow (begun ctx uow u t w s) = (r, s2) ->
  calls (snd (Do ctx uow fn s))
  = calls s2 ++ [match r with Ret None => EvCommit t | _ => EvRollback t end].
Proof.
  intros Hu Hb Hfn. rewrite (Do_begun _ _ _ _ _ _ _ Hu Hb), Hfn.
  destruct r as [[e|]|p]; unfold bind; rewrite call_eq; simpl;
    try destruct (Tx_Rollback t (world s2)) as [[x|p'] w3]; reflexivity.
Qed.

End Endings.

(* ------------------------------------------------------------------ *)
(** ** More runs against the simulated servers *)
(* ------------------------------------------------------------------ *)

Section NoTxRuns.
Import Scenario Cases.
#[local] Existing Instance no_tx_driver.

(** X1 on a run: the server has no connection left for a transaction. *)
Lemma Do_begin_error_witness :
  fst (Do Background 1%positive fn_never fresh_uow_no_tx) = Ret (Some too_many)
  /\ calls (snd (Do Background 1%positive fn_never fresh_uow_no_tx))
     = [EvBeginTxx (DBHandle 0) Background].
Proof.
  destruct (Do_begin_error Background 1%positive fn_never fresh_uow_no_tx
              {| db := DBHandle 0; tx := None |} too_many _ eq_refl eq_refl) as [H _].
  rewrite H. split; reflexivity.
Defined.

(** X3 on a run: a new unit of work, one [Do] that cannot begin. *)
Lemma NewUnitOfWork_GetQueryer_pool_witness :
  fst ((uow <- NewUnitOfWork (DBHandle 0) ;;
        Do Background uow fn_never ;;;
        GetQueryer uow) (Faulty.init Sim.quiet no_tx))
  = Ret pool.
Proof.
  exact (proj2 (NewUnitOfWork_GetQueryer_pool (DBHandle 0) Background fn_never
                  (Faulty.init Sim.quiet no_tx) too_many _ eq_refl)).
Defined.

End NoTxRuns.

Section MoreTestDBRuns.
Import Scenario Cases.
#[local] Existing Instance testdb_driver.

(** X2 on a run: an insert through the queryer of the unit of work. *)
Lemma Do_GetQueryer_is_transaction_witness :
  Do Background 1%positive (fun p => q <- GetQueryer p ;; insert_with q) fresh_uow_testdb
  = Do Background 1%positive (fun _ => insert_with (Queryer_Tx (TxHandle 0))) fresh_uow_testdb
  /\ head (drop 1 (calls (snd (Do Background 1%positive
                                 (fun p => q <- GetQueryer p ;; insert_with q)
                                 fresh_uow_testdb))))
     = Some (EvPrepareNamed (Queryer_Tx (TxHandle 0)) Background insert_olga).
Proof.
  split.
  - exact (Do_GetQueryer_is_transaction Background 1%positive insert_with fresh_uow_testdb
             {| db := DBHandle 0; tx := None |} (TxHandle 0) _ eq_refl eq_refl).
  - vm_compute. reflexivity.
Defined.

(** X25 on a run: the insert succeeds, so the transaction is committed
    right after the call that closes the statement. *)
Lemma Do_ends_transaction_witness :
  calls (snd (Do Background 1%positive
                (fun _ => insert_with (Queryer_Tx (TxHandle 0))) fresh_uow_testdb))
  = [EvBeginTxx (DBHandle 0) Background;
     EvPrepareNamed (Queryer_Tx (TxHandle 0)) Background insert_olga;
     EvSelect (StmtHandle 0) Background olga;
     EvStmtClose (StmtHandle 0);
     EvCommit (TxHandle 0)].
Proof.
  rewrite (Do_ends_transaction Background 1%positive
             (fun _ => insert_with (Queryer_Tx (TxHandle 0))) fresh_uow_testdb
             {| db := DBHandle 0; tx := None |} (TxHandle 0) _ (Ret None)
             (snd (insert_with (Queryer_Tx (TxHandle 0))
                     (begun Background 1%positive {| db := DBHandle 0; tx := None |}
                        (TxHandle 0)
                        (snd (DB_BeginTxx (DBHandle 0) Background (world fresh_uow_testdb)))
                        fresh_uow_testdb)))
             eq_refl eq_refl ltac:(vm_compute; reflexivity)).
  vm_compute. reflexivity.
Defined.

(** X8 on two runs: an insert that reads the id 5, and a statement that
    reads no id. *)
Lemma InsertRecord_returns_witness :
  (exists s1, InsertRecord Background pool insert_olga olga (Sim.init testdb)
              = (Ret (5%Z, None), s1))
  /\ exists e s1, InsertRecord Background pool delete_99 ∅ (Sim.init testdb)
                  = (Ret (0%Z, Some e), s1).
Proof.
  split.
  - destruct (InsertRecord_returns Background pool insert_olga olga (Sim.init testdb)
                [5%Z] None _ ltac:(vm_compute; reflexivity))
      as (id & err' & H & _ & _ & _).
    rewrite H. vm_compute in H. injection H as <- <-. eexists. reflexivity.
  - destruct (InsertRecord_returns Background pool delete_99 ∅ (Sim.init testdb)
                [] None _ ltac:(vm_compute; reflexivity))
      as (id & err' & H & _ & _ & _).
    rewrite H. vm_compute in H. injection H as <- <-. eexists _, _. reflexivity.
Defined.

(** X9 on a run: the insert reads the row with id 5. *)
Lemma AddRecord_result_witness :
  fst (AddRecord Background pool insert_olga olga (Sim.init testdb)) = Ret (5%Z, None).
Proof.
  rewrite (AddRecord_result Background pool insert_olga olga (Sim.init testdb)
             [{| Id := 5 |}] None _ ltac:(vm_compute; reflexivity)).
  reflexivity.
Defined.

(** X10 on two runs: an update that returns one id, and one that
    returns none. *)
Lemma UpdateRecordWithResultListId_result_witness :
  fst (UpdateRecordWithResultListId Background pool insert_olga olga (Sim.init testdb))
    = Ret ([{| Id := 5 |}], None)
  /\ fst (UpdateRecordWithResultListId Background pool delete_99 ∅ (Sim.init testdb))
     = Ret ([], Some (Sentinel ErrNotUpdated)).
Proof.
  split.
  - destruct (UpdateRecordWithResultListId_result Background pool insert_olga olga
                (Sim.init testdb) [{| Id := 5 |}] None _ ltac:(vm_compute; reflexivity))
      as (ids & err & H & _ & -> & ->).
    rewrite H. reflexivity.
  - destruct (UpdateRecordWithResultListId_result Background pool delete_99 ∅
                (Sim.init testdb) [] None _ ltac:(vm_compute; reflexivity))
      as (ids & err & H & _ & -> & ->).
    rewrite H. reflexivity.
Defined.

(** X11 on two runs: one row with id 2, no row with id 99. *)
Lemma UpdateRecord_by_count_witness :
  fst (UpdateRecord Background pool delete_2 ∅ (Sim.init testdb)) = Ret None
  /\ exists e, fst (UpdateRecord Background pool delete_99 ∅ (Sim.init testdb))
               = Ret (Some e)
               /\ errors_Is e ErrInternal = true.
Proof.
  split.
  - edestruct (UpdateRecord_by_count Background pool delete_2 ∅ (Sim.init testdb))
      as [H _]; [reflexivity .. |].
    rewrite H; [reflexivity | vm_compute; discriminate].
  - edestruct (UpdateRecord_by_count Background pool delete_99 ∅ (Sim.init testdb))
      as [_ H]; [reflexivity .. |].
    destruct H as (e & H & Hu & _); [vm_compute; reflexivity|].
    exists e. rewrite H. split; [reflexivity|].
    destruct e; try discriminate Hu. simpl in *. injection Hu as ->. reflexivity.
Defined.

(** X13 on a run: no row with id 99. *)
Lemma DeleteRecord_error_kinds_witness :
  fst (DeleteRecord Background pool delete_99 ∅ (Sim.init testdb))
    = Ret (Some (Sentinel ErrNotFound))
  /\ (Sentinel ErrNotFound = Sentinel ErrNotFound
      \/ exists e1, Sentinel ErrNotFound = Errorf_w_suffix ErrInternal (": " ++ Error e1)).
Proof.
  assert (fst (DeleteRecord Background pool delete_99 ∅ (Sim.init testdb))
          = Ret (Some (Sentinel ErrNotFound))) as H by (vm_compute; reflexivity).
  split; [exact H|].
  exact (DeleteRecord_error_kinds Background pool delete_99 ∅ (Sim.init testdb)
           (Sentinel ErrNotFound) H).
Defined.

(** X14 and X15 on a run: [EXISTS] over [select false] reads true. *)
Lemma CheckExistence_true_only_if_read_witness :
  exists stmt s1,
    PrepareNamedContext pool Background (existsQuery select_false) (Sim.init testdb)
    = (Ret (inl stmt), s1)
    /\ fst (stmt_GetContext stmt Background t_bool false ∅ s1) = Ret (true, None).
Proof.
  exact (proj2 (CheckExistence_true_only_if_read Background pool (existsQuery select_false)
                  ∅ (Sim.init testdb) None ltac:(vm_compute; reflexivity))).
Defined.

Lemma CheckExistence_reads_flag_witness :
  fst (CheckExistence Background pool (existsQuery select_false) ∅ (Sim.init testdb))
  = Ret (true, None).
Proof.
  erewrite (CheckExistence_reads_flag Background pool (existsQuery select_false) ∅
              (Sim.init testdb)); reflexivity.
Defined.

End MoreTestDBRuns.

Section UnreadableRuns.
Import Scenario Cases.
#[local] Existing Instance unreadable_driver.

(** X6 on two runs: a read that finds no row, and a read during which
    the connection is lost. *)
Lemma QueryMultiple_error_kinds_witness :
  (fst (QueryMultiple Background pool select_none ∅ (t_slice t_int64) []
          (Sim.init unreadable))
     = Ret ([], Some (Sentinel ErrNotFound))
   /\ errors_Is ErrNotFound sql_ErrNoRows = false)
  /\ (fst (QueryMultiple Background pool select_all ∅ (t_slice t_int64) []
             (Sim.init unreadable))
        = Ret ([], Some (Errorf_w_suffix ErrInternal (": " ++ Error reset)))
      /\ errors_Is (Errorf_w_suffix ErrInternal (": " ++ Error reset)) sql_ErrNoRows = false).
Proof.
  split.
  - assert (fst (QueryMultiple Background pool select_none ∅ (t_slice t_int64) []
                   (Sim.init unreadable))
            = Ret ([], Some (Sentinel ErrNotFound))) as H by (vm_compute; reflexivity).
    split; [exact H|].
    exact (proj2 (QueryMultiple_error_kinds Background pool select_none ∅
                    (t_slice t_int64) [] [] (Sim.init unreadable) _ H)).
  - assert (fst (QueryMultiple Background pool select_all ∅ (t_slice t_int64) []
                   (Sim.init unreadable))
            = Ret ([], Some (Errorf_w_suffix ErrInternal (": " ++ Error reset)))) as H
      by (vm_compute; reflexivity).
    split; [exact H|].
    exact (proj2 (QueryMultiple_error_kinds Background pool select_all ∅
                    (t_slice t_int64) [] [] (Sim.init unreadable) _ H)).
Defined.

(** X7 on a run: a single-row read that finds no row. *)
Lemma QuerySingle_error_kinds_witness :
  fst (QuerySingle Background pool select_none ∅ t_bool false (Sim.init unreadable))
    = Ret (false, Some (Sentinel ErrNotFound))
  /\ errors_Is ErrNotFound sql_ErrNoRows = false.
Proof.
  assert (fst (QuerySingle Background pool select_none ∅ t_bool false (Sim.init unreadable))
          = Ret (false, Some (Sentinel ErrNotFound))) as H by (vm_compute; reflexivity).
  split; [exact H|].
  exact (proj2 (QuerySingle_error_kinds Background pool select_none ∅
                  t_bool false false (Sim.init unreadable) _ H)).
Defined.

End UnreadableRuns.

Section PrepareRuns.
Import Scenario Cases.
#[local] Existing Instance prepare_no_rows_driver.

(** X16 on a run: preparing fails with an error that wraps
    [sql.ErrNoRows], and the caller is told that nothing exists. *)
Lemma CheckExistence_prepare_no_rows_witness :
  fst (CheckExistence Background pool exists_by_id id_99
         (Faulty.init Sim.quiet prepare_no_rows))
  = Ret (false, None).
Proof.
  erewrite (CheckExistence_prepare_no_rows Background pool exists_by_id id_99
              (Faulty.init Sim.quiet prepare_no_rows)); reflexivity.
Defined.

End PrepareRuns.

Section MoreConnectRuns.
Import Scenario Cases.

(** X19 on two runs: a server that answers, and one that refuses. *)
Lemma connectDB_handle_or_error_witness :
  fst (connectDB (Drv := quiet_driver) "postgres://db" (Sim.init Sim.quiet))
    = Ret (Some (DBHandle 0), None)
  /\ exists e, fst (connectDB (Drv := down_driver) "postgres://db" (Sim.init down))
               = Ret (None, Some e)
               /\ Unwrap e = Some refused.
Proof.
  split.
  - destruct (connectDB_handle_or_error (Drv := quiet_driver) "postgres://db"
                (Sim.init Sim.quiet) (Some (DBHandle 0)) None eq_refl)
      as [(d & Hd & _) | (Hn & _)]; [|discriminate Hn].
    reflexivity.
  - destruct (connectDB_handle_or_error (Drv := down_driver) "postgres://db"
                (Sim.init down) None
                (Some (Errorf_prefix_w "ошибка при проверке соединения: " refused))
                eq_refl)
      as [(d & Hd & _) | (_ & e & e0 & He & Hu & _)]; [discriminate Hd|].
    exists e. injection He as <-. split; reflexivity.
Defined.

(** X20 on a run: the simulated libraries never panic. *)
Lemma InitDB_returns_witness :
  exists r s',
    InitDB (Drv := flaky_driver) "postgres://db" (Sim.init flaky) = (Ret r, s')
    /\ ((exists h, r = (Some h, None)) \/ (exists e, r = (None, Some e))).
Proof.
  apply (InitDB_returns (Drv := flaky_driver)).
  - intros name d w. eexists _, _. reflexivity.
  - intros [n] c w. eexists _, _. reflexivity.
Defined.

(** X22 on a run: the 50th attempt is the first to succeed. *)
Lemma InitDB_first_success_witness :
  fst (InitDB (Drv := late_driver) "postgres://db" (Sim.init late))
    = Ret (Some (DBHandle 49), None)
  /\ Sim.slept (world (snd (InitDB (Drv := late_driver) "postgres://db" (Sim.init late))))
     = (49 * 5000000000)%Z.
Proof.
  destruct (InitDB_first_success (Drv := late_driver) "postgres://db" 49 (Sim.init late)
              (before_attempt "postgres://db" 49 (Sim.init late))
              (last_failure "postgres://db" 49 (Sim.init late))
              (DBHandle 49)
              (snd (connectDB "postgres://db"
                      (before_attempt "postgres://db" 49 (Sim.init late)))))
    as [H _]; [lia | vm_compute; reflexivity ..|].
  rewrite H. split; [reflexivity | vm_compute; reflexivity].
Defined.

(** X23 on a run: the server refuses all 50 connections. *)
Lemma InitDB_exhausted_witness :
  exists e,
    fst (InitDB (Drv := down_driver) "postgres://db" (Sim.init down))
      = Ret (None, Some (retries_exhausted (Some e)))
    /\ Sim.slept (world (snd (InitDB (Drv := down_driver) "postgres://db" (Sim.init down))))
       = 250000000000%Z.
Proof.
  destruct (InitDB_exhausted (Drv := down_driver) "postgres://db" (Sim.init down)
              (before_attempt "postgres://db" 50 (Sim.init down))
              (last_failure "postgres://db" 50 (Sim.init down))
              ltac:(vm_compute; reflexivity))
    as (e & _ & H & _).
  exists e. rewrite H. split; [reflexivity | vm_compute; reflexivity].
Defined.

End MoreConnectRuns.
